(** * rest-in-pytest: a shallow embedding of the given/when/then chain

    The development follows the Python sources of [rest_in_pytest]:
    - [request_config.py]  -> Module [RequestConfig]
    - [request.py]         -> Module [RequestService]
    - [builder.py]         -> Modules [ConfigBuilder], [RequestBuilder]
    - [expect.py]          -> Module [Expect]

    Python objects that are mutated and shared (the [RequestConfig] handed
    from [ConfigBuilder.when] to the [RequestBuilder], the builders that
    return [self]) live in a heap indexed by locations; methods are
    computations in a state-and-exception monad, where a raised exception
    keeps every write made before it. *)

From Stdlib Require Import ZArith QArith.
From stdpp Require Import base option list strings gmap fin_maps.

Set Warnings "-register-all".

Open Scope string_scope.
Open Scope Z_scope.

(** ** Python values *)

(** Values a parsed JSON document is made of ([json.loads]): [None],
    [bool], [int], [float] (finite ones, as the rational they denote),
    [str], [list] and [dict] with string keys in insertion order. *)
Inductive jsonval : Type :=
  | JNull
  | JBool (b : bool)
  | JInt (z : Z)
  | JFloat (q : Q)
  | JStr (s : string)
  | JList (items : list jsonval)
  | JDict (entries : list (string * jsonval)).

(** Values a caller can hand to the builders: the JSON-like ones and the
    further Python types the signatures of [builder.py] and
    [request_specs.py] mention ([bytes], [tuple], file objects). *)
Inductive value : Type :=
  | VJson (j : jsonval)
  | VBytes (bs : list Z)
  | VTuple (items : list value)
  | VObject (cls : string).

Inductive pytype : Type :=
  | TNone | TBool | TInt | TFloat | TStr | TList | TDict
  | TBytes | TTuple | TClass (cls : string).

Global Instance pytype_eq_dec : EqDecision pytype.
Proof. solve_decision. Defined.

Definition type_of (v : value) : pytype :=
  match v with
  | VJson JNull => TNone
  | VJson (JBool _) => TBool
  | VJson (JInt _) => TInt
  | VJson (JFloat _) => TFloat
  | VJson (JStr _) => TStr
  | VJson (JList _) => TList
  | VJson (JDict _) => TDict
  | VBytes _ => TBytes
  | VTuple _ => TTuple
  | VObject c => TClass c
  end.

Definition is_None (v : value) : bool :=
  match v with VJson JNull => true | _ => false end.

Abbreviation None_ := (VJson JNull).
Abbreviation Str s := (VJson (JStr s)).
Abbreviation Int z := (VJson (JInt z)).

(** ** Python's [==] on JSON values

    [bool] is a subclass of [int] and numbers compare by value, so
    [True == 1] and [1 == 1.0]; lists compare element-wise, dicts
    key-wise regardless of insertion order. *)
Definition num_of (a : jsonval) : option Q :=
  match a with
  | JBool b => Some (inject_Z (if b then 1 else 0))
  | JInt z => Some (inject_Z z)
  | JFloat q => Some q
  | _ => None
  end.

Fixpoint assoc {A} (k : string) (kvs : list (string * A)) : option A :=
  match kvs with
  | [] => None
  | (k', v) :: rest => if String.eqb k k' then Some v else assoc k rest
  end.

Fixpoint py_eq (a b : jsonval) : bool :=
  match a, b with
  | JNull, JNull => true
  | JStr s, JStr t => String.eqb s t
  | JList xs, JList ys =>
      (fix go (xs ys : list jsonval) : bool :=
         match xs, ys with
         | [], [] => true
         | x :: xs', y :: ys' => py_eq x y && go xs' ys'
         | _, _ => false
         end) xs ys
  | JDict xs, JDict ys =>
      Nat.eqb (length xs) (length ys) &&
      (fix all (xs : list (string * jsonval)) : bool :=
         match xs with
         | [] => true
         | (k, v) :: xs' =>
             match assoc k ys with
             | Some w => py_eq v w
             | None => false
             end && all xs'
         end) xs
  | _, _ =>
      match num_of a, num_of b with
      | Some x, Some y => Qeq_bool x y
      | _, _ => false
      end
  end.

(** ** Exceptions *)

(** The exception classes that occur: Python's built-in ones, the
    [requests] ones and [rest_in_pytest.error.Error].  The text assertpy
    formats for an [AssertionError] is not modelled. *)
Inductive exn : Type :=
  | ValueError (msg : string)
  | TypeError (msg : string)
  | AttributeError (msg : string)
  | KeyError (key : string)
  | AssertionError
  | Error (msg : string)
  | RequestException (msg : string)
  | JSONDecodeError (msg : string)
  | JSONPathError (msg : string).

Definition result (A : Type) : Type := exn + A.

Definition Ok {A} (a : A) : result A := inr a.
Definition Raise {A} (e : exn) : result A := inl e.

Definition rbind {A B} (r : result A) (k : A → result B) : result B :=
  match r with
  | inl e => inl e
  | inr a => k a
  end.

(** ** Responses and the transport *)

Inductive HTTPMethod : Type :=
  | GET | POST | PUT | DELETE | PATCH | HEAD | OPTIONS | CONNECT | TRACE.

(** A [requests.Response]: [json] is what [response.json()] gives, the
    parsed body or the decoding error. *)
Record Response : Type := mkResponse {
  status_code : Z;
  headers : list (string * string);
  text : string;
  response_json : result jsonval;
}.

(** One call of [requests.Session.request(method=, url=, **kwargs)]. *)
Record transport_call : Type := mkCall {
  call_method : HTTPMethod;
  call_url : string;
  call_kwargs : gmap string value;
}.

(** ** The heap *)

Definition loc := positive.

(** [request_specs.py]: the twelve optional fields of [RequestSpecs]. *)
Record RequestSpecs : Type := mkSpecs {
  _base_url : option string;
  _query_params : option value;
  _data : option value;
  _headers : option value;
  _cookies : option value;
  _files : option value;
  _auth : option value;
  _stream : option value;
  _proxies : option value;
  _verify : option value;
  _cert : option value;
  _json_data : option value;
}.

(** [ConfigBuilder]: its [RequestSpecs] and a reference to its
    [RequestConfig]. *)
Record ConfigBuilderObj : Type := mkConfigBuilder {
  cb_request_specs : RequestSpecs;
  cb_request_config : loc;
}.

(** [RequestService]: the base URL; the [requests.Session] is the
    transport. *)
Record RequestServiceObj : Type := mkRequestService {
  rs_base_url : option string;
}.

(** [RequestBuilder]: [__response] is [None] while the attribute has not
    been assigned ([__init__] does not create it). *)
Record RequestBuilderObj : Type := mkRequestBuilder {
  rb_request : RequestServiceObj;
  rb_request_config : loc;
  rb_response : option Response;
}.

Record world : Type := mkWorld {
  configs : gmap loc (gmap string value);
  config_builders : gmap loc ConfigBuilderObj;
  request_builders : gmap loc RequestBuilderObj;
  wire : list transport_call;
}.

Definition empty_world : world :=
  {| configs := ∅; config_builders := ∅; request_builders := ∅; wire := [] |}.

Definition set_configs (f : gmap loc (gmap string value) → gmap loc (gmap string value))
    (w : world) : world :=
  {| configs := f (configs w); config_builders := config_builders w;
     request_builders := request_builders w; wire := wire w |}.

Definition set_config_builders (f : gmap loc ConfigBuilderObj → gmap loc ConfigBuilderObj)
    (w : world) : world :=
  {| configs := configs w; config_builders := f (config_builders w);
     request_builders := request_builders w; wire := wire w |}.

Definition set_request_builders (f : gmap loc RequestBuilderObj → gmap loc RequestBuilderObj)
    (w : world) : world :=
  {| configs := configs w; config_builders := config_builders w;
     request_builders := f (request_builders w); wire := wire w |}.

Definition set_wire (f : list transport_call → list transport_call)
    (w : world) : world :=
  {| configs := configs w; config_builders := config_builders w;
     request_builders := request_builders w; wire := f (wire w) |}.

(** ** The monad: state with exceptions; the state survives a raise. *)

Definition M (A : Type) : Type := world → world * result A.

Definition ret {A} (a : A) : M A := fun w => (w, inr a).
Definition raise {A} (e : exn) : M A := fun w => (w, inl e).
Definition bind {A B} (m : M A) (k : A → M B) : M B :=
  fun w => match m w with
           | (w', inl e) => (w', inl e)
           | (w', inr a) => k a w'
           end.
Definition lift {A} (r : result A) : M A := fun w => (w, r).

Notation "'let!' x ':=' m 'in' k" := (bind m (fun x => k))
  (at level 10, x name, m at level 100, k at level 200).
Notation "'do!' m 'in' k" := (bind m (fun _ => k))
  (at level 10, m at level 100, k at level 200).

(** Reading an object behind a reference; a dangling reference (which
    Python cannot have) is reported as an [AttributeError]. *)
Definition dangling : exn := AttributeError "dangling reference".

Definition read_config (c : loc) : M (gmap string value) :=
  fun w => match configs w !! c with
           | Some p => (w, inr p)
           | None => (w, inl dangling)
           end.

Definition write_config (c : loc) (p : gmap string value) : M unit :=
  fun w => (set_configs (insert c p) w, inr tt).

Definition new_config (p : gmap string value) : M loc :=
  fun w => let c := fresh (dom (configs w)) in
           (set_configs (insert c p) w, inr c).

Definition read_request_builder (self : loc) : M RequestBuilderObj :=
  fun w => match request_builders w !! self with
           | Some rb => (w, inr rb)
           | None => (w, inl dangling)
           end.

Definition write_request_builder (self : loc) (rb : RequestBuilderObj) : M unit :=
  fun w => (set_request_builders (insert self rb) w, inr tt).

Definition new_request_builder (rb : RequestBuilderObj) : M loc :=
  fun w => let l := fresh (dom (request_builders w)) in
           (set_request_builders (insert l rb) w, inr l).

Definition read_config_builder (self : loc) : M ConfigBuilderObj :=
  fun w => match config_builders w !! self with
           | Some cb => (w, inr cb)
           | None => (w, inl dangling)
           end.

Definition write_config_builder (self : loc) (cb : ConfigBuilderObj) : M unit :=
  fun w => (set_config_builders (insert self cb) w, inr tt).

Definition new_config_builder (cb : ConfigBuilderObj) : M loc :=
  fun w => let l := fresh (dom (config_builders w)) in
           (set_config_builders (insert l cb) w, inr l).

(** ** Built-ins *)

(** [issubclass]: every class is its own subclass, and [bool] is a
    subclass of [int]. *)
Definition issubclass (t c : pytype) : bool :=
  bool_decide (t = c) || (bool_decide (t = TBool) && bool_decide (c = TInt)).

(** [isinstance(v, (c1, ..., cn))]. *)
Definition isinstance (v : value) (classes : list pytype) : bool :=
  existsb (issubclass (type_of v)) classes.

(** ** request_config.py *)

Module RequestConfig.

(** [__init__]: [self.parameters = {}]. *)
Definition __init__ : M loc := new_config ∅.

(** [__getitem__]: [self.parameters[key]]. *)
Definition __getitem__ (self : loc) (key : string) : M value :=
  let! parameters := read_config self in
  match parameters !! key with
  | Some v => ret v
  | None => raise (KeyError key)
  end.

(** [__setitem__]: [self.parameters[key] = value]. *)
Definition __setitem__ (self : loc) (key : string) (v : value) : M unit :=
  let! parameters := read_config self in
  write_config self (<[key := v]> parameters).

Definition update_message (k : string) : string :=
  "Key " ++ k ++ " must be a string and value must be a string, number or dict".

(** [update]: [kwargs] is the dictionary bound to the keyword
    parameter of [update], in its iteration order; its keys are strings
    (Python binds no other key there), so the first [isinstance] test of
    the loop body never fails. *)
Fixpoint update (self : loc) (kwargs : list (string * value)) : M unit :=
  match kwargs with
  | [] => ret tt
  | (k, v) :: rest =>
      if negb (is_None v) && negb (isinstance v [TStr; TInt; TFloat; TDict; TList])
      then raise (ValueError (update_message k))
      else do! __setitem__ self k v in update self rest
  end.

(** [clear]: [self.parameters.clear()]. *)
Definition clear (self : loc) : M unit :=
  do! read_config self in
  write_config self ∅.

(** [copy]: a new [RequestConfig] whose empty [parameters] is updated
    with the entries of [self.parameters]. *)
Definition copy (self : loc) : M loc :=
  let! new_config := __init__ in
  let! parameters := read_config self in
  let! fresh_parameters := read_config new_config in
  do! write_config new_config (parameters ∪ fresh_parameters) in
  ret new_config.

End RequestConfig.

(** ** External collaborators

    The libraries the package calls are interfaces here: the HTTP session
    of [requests] and [urllib.parse.urljoin], [json.dumps], and
    [jsonpath.findall].  The session sees the calls made before, so that
    a server may answer the same request differently over time. *)

Class Transport : Type := {
  urljoin : option string → string → string;
  session_request :
    list transport_call → HTTPMethod → string → gmap string value → result Response;
}.

Class JSONEncoder : Type := {
  json_dumps : jsonval → string;
}.

Class JSONPath : Type := {
  findall : string → jsonval → result (list jsonval);
}.

(** [requests.Response.raise_for_status] raises [HTTPError] for the client
    and server error codes, [400 <= status_code < 600]; the property
    [requests.Response.ok] is [False] when it raises and [True]
    otherwise. *)
Definition raise_for_status (response : Response) : result unit :=
  if (400 <=? status_code response) && (status_code response <? 600)
  then Raise (RequestException "HTTPError")
  else Ok tt.

Definition Response_ok (response : Response) : bool :=
  match raise_for_status response with
  | inl _ => false
  | inr _ => true
  end.

(** Binding a call [f(a1=.., .., an=.., **kwargs)] whose parameters
    [a1 .. an] are given by the caller: a key of [kwargs] that names one
    of them is a [TypeError]. *)
Definition bind_keywords (f : string) (named : list string)
    (kwargs : gmap string value) : result unit :=
  match List.find (fun k => bool_decide (is_Some (kwargs !! k))) named with
  | Some k => Raise (TypeError (f ++ "() got multiple values for argument '" ++ k ++ "'"))
  | None => Ok tt
  end.

(** ** request.py *)

Module RequestService.
Section with_transport.
Context `{!Transport} `{!JSONEncoder}.

Definition __init__ (base_url : option string) : RequestServiceObj :=
  {| rs_base_url := base_url |}.

Definition _status_code_is_success (response : Response) : bool :=
  (200 <=? status_code response) && (status_code response <=? 299).

(** [_request]: join the URL, call the session, turn a
    [RequestException] into [Error]; logging is left out. *)
Definition _request (self : RequestServiceObj) (method : HTTPMethod)
    (endpoint : string) (kwargs : gmap string value) : M Response :=
  fun w =>
    let url := urljoin (rs_base_url self) endpoint in
    let w' := set_wire (fun calls => (calls ++ [mkCall method url kwargs])%list) w in
    match session_request (wire w) method url kwargs with
    | inr response => (w', inr response)
    | inl (RequestException e) => (w', inl (Error ("Request Error: " ++ e)))
    | inl e => (w', inl e)
    end.

(** [_handle_data]: defined by the class, called by none of its
    methods. *)
Definition _handle_data (kwargs : gmap string value) : result (gmap string value) :=
  if forallb (fun key => bool_decide (is_Some (kwargs !! key))) ["data"; "json"]
  then Raise (ValueError "At least one of 'data' or 'json' arguments must be provided")
  else
    match kwargs !! "data" with
    | Some (VJson (JDict d)) => Ok (<["data" := Str (json_dumps (JDict d))]> kwargs)
    | _ => Ok kwargs
    end.

(** The nine verb methods have one body,
    [return self._request(method=HTTPMethod.X, endpoint=endpoint, **kwargs)]. *)
Definition verb (name : string) (method : HTTPMethod) (self : RequestServiceObj)
    (endpoint : string) (kwargs : gmap string value) : M Response :=
  do! lift (bind_keywords name ["self"; "endpoint"] kwargs) in
  do! lift (bind_keywords "_request" ["self"; "method"; "endpoint"] kwargs) in
  _request self method endpoint kwargs.

Definition get := verb "get" GET.
Definition post := verb "post" POST.
Definition put := verb "put" PUT.
Definition delete := verb "delete" DELETE.
Definition patch := verb "patch" PATCH.
Definition head := verb "head" HEAD.
Definition options := verb "options" OPTIONS.
Definition connect := verb "connect" CONNECT.
Definition trace := verb "trace" TRACE.

End with_transport.
End RequestService.

(** ** builder.py *)

Record ExpectBuilderObj : Type := mkExpectBuilder {
  eb_response : Response;
}.

Module RequestBuilder.
Section with_transport.
Context `{!Transport} `{!JSONEncoder}.

Definition __init__ (request : RequestServiceObj) (request_config : loc) : M loc :=
  new_request_builder
    {| rb_request := request; rb_request_config := request_config;
       rb_response := None |}.

(** The nine verb methods have one body:
    [update] of [self.__request_config] with the keyword arguments,
    then [self.__response = self.__request.X(endpoint, ...)] with the
    [parameters] of the store as keyword arguments, then [return self].
    [kwargs] is the dictionary bound to the keyword parameter, in its
    order. *)
Definition verb
    (send : RequestServiceObj → string → gmap string value → M Response)
    (self : loc) (endpoint : string) (kwargs : list (string * value)) : M loc :=
  let! rb := read_request_builder self in
  do! RequestConfig.update (rb_request_config rb) kwargs in
  let! parameters := read_config (rb_request_config rb) in
  let! response := send (rb_request rb) endpoint parameters in
  do! write_request_builder self
        {| rb_request := rb_request rb;
           rb_request_config := rb_request_config rb;
           rb_response := Some response |} in
  ret self.

Definition get := verb RequestService.get.
Definition post := verb RequestService.post.
Definition put := verb RequestService.put.
Definition delete := verb RequestService.delete.
Definition patch := verb RequestService.patch.
Definition head := verb RequestService.head.
Definition options := verb RequestService.options.
Definition trace := verb RequestService.trace.
Definition connect := verb RequestService.connect.

(** [close]: closes the session, which the model does not track. *)
Definition close (self : loc) : M loc :=
  do! read_request_builder self in
  ret self.

(** [clear]: [self.__request_config.clear()]. *)
Definition clear (self : loc) : M loc :=
  let! rb := read_request_builder self in
  do! RequestConfig.clear (rb_request_config rb) in
  ret self.

(** [copy]: [self.__request_config.copy()], whose result is dropped. *)
Definition copy (self : loc) : M loc :=
  let! rb := read_request_builder self in
  do! RequestConfig.copy (rb_request_config rb) in
  ret self.

(** [then]: [ExpectBuilder(self.__response)]; reading the attribute
    before a verb method has assigned it is an [AttributeError]. *)
Definition then_ (self : loc) : M ExpectBuilderObj :=
  let! rb := read_request_builder self in
  match rb_response rb with
  | Some response => ret {| eb_response := response |}
  | None =>
      raise (AttributeError
        "'RequestBuilder' object has no attribute '_RequestBuilder__response'")
  end.

End with_transport.
End RequestBuilder.

Module ConfigBuilder.

Definition empty_specs : RequestSpecs :=
  {| _base_url := None; _query_params := None; _data := None; _headers := None;
     _cookies := None; _files := None; _auth := None; _stream := None;
     _proxies := None; _verify := None; _cert := None; _json_data := None |}.

Definition set_base_url (u : option string) (s : RequestSpecs) : RequestSpecs :=
  {| _base_url := u; _query_params := _query_params s; _data := _data s;
     _headers := _headers s; _cookies := _cookies s; _files := _files s;
     _auth := _auth s; _stream := _stream s; _proxies := _proxies s;
     _verify := _verify s; _cert := _cert s; _json_data := _json_data s |}.

Definition set_query_params (v : value) (s : RequestSpecs) : RequestSpecs :=
  {| _base_url := _base_url s; _query_params := Some v; _data := _data s;
     _headers := _headers s; _cookies := _cookies s; _files := _files s;
     _auth := _auth s; _stream := _stream s; _proxies := _proxies s;
     _verify := _verify s; _cert := _cert s; _json_data := _json_data s |}.

Definition set_data (v : value) (s : RequestSpecs) : RequestSpecs :=
  {| _base_url := _base_url s; _query_params := _query_params s; _data := Some v;
     _headers := _headers s; _cookies := _cookies s; _files := _files s;
     _auth := _auth s; _stream := _stream s; _proxies := _proxies s;
     _verify := _verify s; _cert := _cert s; _json_data := _json_data s |}.

Definition set_headers (v : value) (s : RequestSpecs) : RequestSpecs :=
  {| _base_url := _base_url s; _query_params := _query_params s; _data := _data s;
     _headers := Some v; _cookies := _cookies s; _files := _files s;
     _auth := _auth s; _stream := _stream s; _proxies := _proxies s;
     _verify := _verify s; _cert := _cert s; _json_data := _json_data s |}.

Definition set_cookies (v : value) (s : RequestSpecs) : RequestSpecs :=
  {| _base_url := _base_url s; _query_params := _query_params s; _data := _data s;
     _headers := _headers s; _cookies := Some v; _files := _files s;
     _auth := _auth s; _stream := _stream s; _proxies := _proxies s;
     _verify := _verify s; _cert := _cert s; _json_data := _json_data s |}.

Definition set_files (v : value) (s : RequestSpecs) : RequestSpecs :=
  {| _base_url := _base_url s; _query_params := _query_params s; _data := _data s;
     _headers := _headers s; _cookies := _cookies s; _files := Some v;
     _auth := _auth s; _stream := _stream s; _proxies := _proxies s;
     _verify := _verify s; _cert := _cert s; _json_data := _json_data s |}.

Definition set_auth (v : value) (s : RequestSpecs) : RequestSpecs :=
  {| _base_url := _base_url s; _query_params := _query_params s; _data := _data s;
     _headers := _headers s; _cookies := _cookies s; _files := _files s;
     _auth := Some v; _stream := _stream s; _proxies := _proxies s;
     _verify := _verify s; _cert := _cert s; _json_data := _json_data s |}.

Definition set_stream (v : value) (s : RequestSpecs) : RequestSpecs :=
  {| _base_url := _base_url s; _query_params := _query_params s; _data := _data s;
     _headers := _headers s; _cookies := _cookies s; _files := _files s;
     _auth := _auth s; _stream := Some v; _proxies := _proxies s;
     _verify := _verify s; _cert := _cert s; _json_data := _json_data s |}.

Definition set_proxies (v : value) (s : RequestSpecs) : RequestSpecs :=
  {| _base_url := _base_url s; _query_params := _query_params s; _data := _data s;
     _headers := _headers s; _cookies := _cookies s; _files := _files s;
     _auth := _auth s; _stream := _stream s; _proxies := Some v;
     _verify := _verify s; _cert := _cert s; _json_data := _json_data s |}.

Definition set_verify (v : value) (s : RequestSpecs) : RequestSpecs :=
  {| _base_url := _base_url s; _query_params := _query_params s; _data := _data s;
     _headers := _headers s; _cookies := _cookies s; _files := _files s;
     _auth := _auth s; _stream := _stream s; _proxies := _proxies s;
     _verify := Some v; _cert := _cert s; _json_data := _json_data s |}.

Definition set_cert (v : value) (s : RequestSpecs) : RequestSpecs :=
  {| _base_url := _base_url s; _query_params := _query_params s; _data := _data s;
     _headers := _headers s; _cookies := _cookies s; _files := _files s;
     _auth := _auth s; _stream := _stream s; _proxies := _proxies s;
     _verify := _verify s; _cert := Some v; _json_data := _json_data s |}.

Definition set_json_data (v : value) (s : RequestSpecs) : RequestSpecs :=
  {| _base_url := _base_url s; _query_params := _query_params s; _data := _data s;
     _headers := _headers s; _cookies := _cookies s; _files := _files s;
     _auth := _auth s; _stream := _stream s; _proxies := _proxies s;
     _verify := _verify s; _cert := _cert s; _json_data := Some v |}.

(** [__init__]: fresh [RequestSpecs], fresh [RequestConfig], then the
    base URL. *)
Definition __init__ (base_url : option string) : M loc :=
  let! request_config := RequestConfig.__init__ in
  new_config_builder
    {| cb_request_specs := set_base_url base_url empty_specs;
       cb_request_config := request_config |}.

(** [base_url]: the specification only, no entry of the store. *)
Definition base_url (self : loc) (url : option string) : M loc :=
  match url with
  | Some u =>
      let! cb := read_config_builder self in
      do! write_config_builder self
            {| cb_request_specs := set_base_url (Some u) (cb_request_specs cb);
               cb_request_config := cb_request_config cb |} in
      ret self
  | None => ret self
  end.

(** The shape of the eleven other setters:
    [if x is not None: self.__request_specs.f = x;
     self.__request_config[key] = self.__request_specs.f]. *)
Definition setter (field : value → RequestSpecs → RequestSpecs) (key : string)
    (self : loc) (x : value) : M loc :=
  if is_None x then ret self
  else
    let! cb := read_config_builder self in
    do! write_config_builder self
          {| cb_request_specs := field x (cb_request_specs cb);
             cb_request_config := cb_request_config cb |} in
    do! RequestConfig.__setitem__ (cb_request_config cb) key x in
    ret self.

Definition params := setter set_query_params "params".
Definition data := setter set_data "data".
Definition json_data := setter set_json_data "json".
Definition headers := setter set_headers "headers".
Definition cookies := setter set_cookies "cookies".
Definition auth := setter set_auth "auth".
Definition files := setter set_files "files".
Definition proxies := setter set_proxies "proxies".
Definition stream := setter set_stream "stream".
Definition ssl_verify := setter set_verify "verify".
Definition cert := setter set_cert "cert".

(** [when]: a [RequestService] for the base URL and a [RequestBuilder]
    that shares this builder's [RequestConfig]. *)
Definition when (self : loc) : M loc :=
  let! cb := read_config_builder self in
  let request := RequestService.__init__ (_base_url (cb_request_specs cb)) in
  RequestBuilder.__init__ request (cb_request_config cb).

End ConfigBuilder.

Module Rip.

(** [given]: [return ConfigBuilder(base_url)]. *)
Definition given (base_url : option string) : M loc := ConfigBuilder.__init__ base_url.

End Rip.

(** ** Python's [in] and the assertions of assertpy *)

Fixpoint is_substring (t s : string) : bool :=
  String.prefix t s ||
  match s with
  | EmptyString => false
  | String _ s' => is_substring t s'
  end.

Definition type_name (j : jsonval) : string :=
  match j with
  | JNull => "NoneType"
  | JBool _ => "bool"
  | JInt _ => "int"
  | JFloat _ => "float"
  | JStr _ => "str"
  | JList _ => "list"
  | JDict _ => "dict"
  end.

(** [x in container]: search of a list with [==], key lookup in a dict
    (which hashes [x], so a list or a dict there is a [TypeError]),
    substring test in a string; the other JSON values are not iterable. *)
Definition py_in (x container : jsonval) : result bool :=
  match container with
  | JList items => Ok (existsb (fun item => py_eq item x) items)
  | JDict entries =>
      match x with
      | JList _ | JDict _ => Raise (TypeError ("unhashable type: '" ++ type_name x ++ "'"))
      | JStr s => Ok (existsb (fun kv => String.eqb (fst kv) s) entries)
      | _ => Ok false
      end
  | JStr s =>
      match x with
      | JStr t => Ok (is_substring t s)
      | _ => Raise (TypeError ("'in <string>' requires string as left operand, not "
                                 ++ type_name x))
      end
  | _ => Raise (TypeError ("argument of type '" ++ type_name container
                             ++ "' is not iterable"))
  end.

Notation "'let?' x ':=' r 'in' k" := (rbind r (fun x => k))
  (at level 10, x name, r at level 100, k at level 200).
Notation "'do?' r 'in' k" := (rbind r (fun _ => k))
  (at level 10, r at level 100, k at level 200).

Module assertpy.

(** [assert_that(val).is_equal_to(other)]: fails when [val != other]. *)
Definition is_equal_to (val other : jsonval) : result unit :=
  if py_eq val other then Ok tt else Raise AssertionError.

(** [assert_that(val).is_true()]: fails when [not val]. *)
Definition is_true (val : bool) : result unit :=
  if val then Ok tt else Raise AssertionError.

(** [assert_that(val).contains(item)] with one item: fails when
    [item not in val]. *)
Definition contains (val item : jsonval) : result unit :=
  let? found := py_in item val in
  if found then Ok tt else Raise AssertionError.

End assertpy.

(** ** expect.py *)

Record JsonPathMatch : Type := mkJsonPathMatch {
  match_value : jsonval;
}.

Module Expect.
Section with_jsonpath.
Context `{!JSONPath}.

Definition status (self : Response) (code : Z) : result unit :=
  assertpy.is_equal_to (JInt code) (JInt (status_code self)).

Definition status_ok (self : Response) : result unit :=
  assertpy.is_true (Response_ok self).

Definition body (self : Response) (t : string) : result unit :=
  assertpy.is_equal_to (JStr t) (JStr (text self)).

Definition body_contains (self : Response) (v : jsonval) : result unit :=
  assertpy.contains (JStr (text self)) v.

Definition json (self : Response) (expected : jsonval) : result unit :=
  let? parsed := response_json self in
  assertpy.is_equal_to expected parsed.

Definition json_contains (self : Response) (expected : jsonval) : result unit :=
  let? parsed := response_json self in
  assertpy.contains parsed expected.

Definition _json_path_matches (self : Response) (json_path_expr : string)
    : result (list JsonPathMatch) :=
  if String.eqb json_path_expr EmptyString then Ok []
  else
    let? parsed := response_json self in
    let? matches := findall json_path_expr parsed in
    Ok (map mkJsonPathMatch matches).

(** The loop [for match in json_path_matches: assert_that(match.value)
    .is_equal_to(expected_value)]. *)
Fixpoint assert_matches (matches : list JsonPathMatch) (expected_value : jsonval)
    : result unit :=
  match matches with
  | [] => Ok tt
  | m :: rest =>
      do? assertpy.is_equal_to (match_value m) expected_value in
      assert_matches rest expected_value
  end.

Definition json_path (self : Response) (json_path_expr : string)
    (expected_value : jsonval) : result unit :=
  let? json_path_matches := _json_path_matches self json_path_expr in
  assert_matches json_path_matches expected_value.

End with_jsonpath.
End Expect.

Module ExpectBuilder.
Section with_jsonpath.
Context `{!JSONPath}.

Definition expect_status (self : ExpectBuilderObj) (code : Z) : result ExpectBuilderObj :=
  do? Expect.status (eb_response self) code in Ok self.

Definition expect_body (self : ExpectBuilderObj) (t : string) : result ExpectBuilderObj :=
  do? Expect.body (eb_response self) t in Ok self.

Definition expect_body_contains (self : ExpectBuilderObj) (v : jsonval)
    : result ExpectBuilderObj :=
  do? Expect.body_contains (eb_response self) v in Ok self.

Definition expect_json (self : ExpectBuilderObj) (j : jsonval) : result ExpectBuilderObj :=
  do? Expect.json (eb_response self) j in Ok self.

Definition expect_json_contains (self : ExpectBuilderObj) (j : jsonval)
    : result ExpectBuilderObj :=
  do? Expect.json_contains (eb_response self) j in Ok self.

Definition expect_json_path (self : ExpectBuilderObj) (json_path_expr : string)
    (expected_value : jsonval) : result ExpectBuilderObj :=
  do? Expect.json_path (eb_response self) json_path_expr expected_value in Ok self.

End with_jsonpath.
End ExpectBuilder.

(** * Statements

    Definitions the statements are written with. *)

(** ** The configuration store *)

(** The test [update] makes on a value before it stores it. *)
Definition valid_value (v : value) : bool :=
  is_None v || isinstance v [TStr; TInt; TFloat; TDict; TList].

(** The kinds of value the specification speaks of, and its allowed set:
    string, number, boolean, mapping, sequence.  [bytes], [tuple] and
    other objects are kinds of their own, outside the set. *)
Inductive kind : Type :=
  | KNull | KString | KNumber | KBoolean | KMapping | KSequence
  | KBytes | KTuple | KObject.

Global Instance kind_eq_dec : EqDecision kind.
Proof. solve_decision. Defined.

Definition kind_of (v : value) : kind :=
  match type_of v with
  | TNone => KNull
  | TStr => KString
  | TInt | TFloat => KNumber
  | TBool => KBoolean
  | TDict => KMapping
  | TList => KSequence
  | TBytes => KBytes
  | TTuple => KTuple
  | TClass _ => KObject
  end.

Definition allowed_kinds : list kind :=
  [KString; KNumber; KBoolean; KMapping; KSequence].

Definition accepted (v : value) : Prop :=
  kind_of v = KNull ∨ kind_of v ∈ allowed_kinds.

(** What [update] leaves in [parameters] and how it ends, as a function
    of the entries alone. *)
Fixpoint merge_entries (kwargs : list (string * value)) (p : gmap string value)
    : gmap string value * result unit :=
  match kwargs with
  | [] => (p, inr tt)
  | (k, v) :: rest =>
      if valid_value v then merge_entries rest (<[k := v]> p)
      else (p, inl (ValueError (RequestConfig.update_message k)))
  end.

Definition write_entries (kwargs : list (string * value)) (p : gmap string value)
    : gmap string value :=
  foldl (fun m kv => <[kv.1 := kv.2]> m) p kwargs.

(** The mutating operations of a store. *)
Inductive mutation : Type :=
  | MSet (k : string) (v : value)
  | MUpdate (kwargs : list (string * value))
  | MClear.

Definition mutate (self : loc) (m : mutation) : M unit :=
  match m with
  | MSet k v => RequestConfig.__setitem__ self k v
  | MUpdate kwargs => RequestConfig.update self kwargs
  | MClear => RequestConfig.clear self
  end.

(** The world after a series of mutations of one store, a caller going on
    after a mutation that raised. *)
Definition mutate_all (self : loc) (ms : list mutation) (w : world) : world :=
  foldl (fun w m => (mutate self m w).1) w ms.

(** ** Sample data for instantiating the statements *)

Module Sample.

(** A world with one store, at location [1], holding [p]. *)
Definition store_world (p : gmap string value) : world :=
  set_configs (insert 1%positive p) empty_world.

Definition params_a (n : Z) : value := VJson (JDict [("a", JInt n)]).

Definition response (code : Z) (parsed : result jsonval) : Response :=
  {| status_code := code; headers := []; text := EmptyString; response_json := parsed |}.

(** A transport that joins by concatenation and answers every request
    with [200] and the body [{"userId": 1, "id": 1}]. *)
Definition transport : Transport :=
  {| urljoin := fun base endpoint => default EmptyString base ++ endpoint;
     session_request := fun _ _ _ _ =>
       Ok (response 200 (Ok (JDict [("userId", JInt 1); ("id", JInt 1)]))) |}.

(** A matcher for the paths [$.name]: the member [name] of a mapping. *)
Definition member_path : JSONPath :=
  {| findall := fun expr doc =>
       match expr with
       | String a (String b name) =>
           if String.eqb (String a (String b EmptyString)) "$." then
             match doc with
             | JDict entries =>
                 match assoc name entries with
                 | Some v => Ok [v]
                 | None => Ok []
                 end
             | _ => Ok []
             end
           else Raise (JSONPathError expr)
       | _ => Raise (JSONPathError expr)
       end |}.

End Sample.

(** The nine verb operations of the dispatcher. *)
Definition verbs `{!Transport}
    : list (loc → string → list (string * value) → M loc) :=
  [RequestBuilder.get; RequestBuilder.post; RequestBuilder.put;
   RequestBuilder.delete; RequestBuilder.patch; RequestBuilder.head;
   RequestBuilder.options; RequestBuilder.trace; RequestBuilder.connect].

(** No entry is named like a parameter of the methods the options are
    spread into. *)
Definition reserved_free (p : gmap string value) : Prop :=
  ∀ k, k ∈ ["self"; "endpoint"; "method"] → p !! k = None.

(** The answer of the session, as [_request] hands it on. *)
Definition answer (r : result Response) : result Response :=
  match r with
  | inr response => inr response
  | inl (RequestException e) => inl (Error ("Request Error: " ++ e))
  | inl e => inl e
  end.

(** The store after the merge of the overrides, and the call made with
    it. *)
Definition merged (kwargs : list (string * value)) (p : gmap string value)
    : gmap string value :=
  (merge_entries kwargs p).1.

Definition call_of {transport : Transport} (rb : RequestBuilderObj)
    (method : HTTPMethod) (endpoint : string) (p : gmap string value)
    : transport_call :=
  mkCall method (urljoin (rs_base_url (rb_request rb)) endpoint) p.

Module SampleChain.

Definition base : string := "http://x.test/api/".

(** [given(base).params({"a": 1}).when()]. *)
Definition dispatcher_with_params : M loc :=
  let! builder := Rip.given (Some base) in
  let! builder := ConfigBuilder.params builder (Sample.params_a 1) in
  ConfigBuilder.when builder.

Definition world_with_params : world := (dispatcher_with_params empty_world).1.

Definition dispatcher : RequestBuilderObj :=
  {| rb_request := {| rs_base_url := Some base |};
     rb_request_config := 1%positive;
     rb_response := None |}.

End SampleChain.

(** Operations of a dispatcher other than the verbs and [then]. *)
Inductive housekeeping : Type := Close | Clear | Copy.

Definition housekeep (self : loc) (op : housekeeping) : M loc :=
  match op with
  | Close => RequestBuilder.close self
  | Clear => RequestBuilder.clear self
  | Copy => RequestBuilder.copy self
  end.

Definition housekeep_all (self : loc) (ops : list housekeeping) (w : world) : world :=
  foldl (fun w op => (housekeep self op w).1) w ops.

Definition no_response_message : string :=
  "'RequestBuilder' object has no attribute '_RequestBuilder__response'".

(** Body data together with a JSON body. *)
Module BothBodies.

Definition body_data : value := Str "{'title': 'foo'}".
Definition json_body : value := VJson (JDict [("title", JStr "foo")]).

Definition both : gmap string value :=
  <["json" := json_body]> (<["data" := body_data]> ∅).

(** [given(base).data(..).json_data(..).when()]. *)
Definition configured : M loc :=
  let! builder := Rip.given (Some "http://x.test") in
  let! builder := ConfigBuilder.data builder body_data in
  let! builder := ConfigBuilder.json_data builder json_body in
  ConfigBuilder.when builder.

(** [given(base).when()]. *)
Definition bare : M loc :=
  let! builder := Rip.given (Some "http://x.test") in
  ConfigBuilder.when builder.

Definition dispatcher : RequestBuilderObj :=
  {| rb_request := {| rs_base_url := Some "http://x.test" |};
     rb_request_config := 1%positive;
     rb_response := None |}.

Section chains.
Context {transport : Transport}.

(** [... .post("/posts")] after the setters. *)
Definition by_setters : M loc :=
  let! dispatcher := configured in
  RequestBuilder.post dispatcher "/posts" [].

(** [... .post("/posts", data=.., json=..)] without them. *)
Definition by_overrides : M loc :=
  let! dispatcher := bare in
  RequestBuilder.post dispatcher "/posts" [("data", body_data); ("json", json_body)].

Definition sent : transport_call :=
  mkCall POST (urljoin (Some "http://x.test") "/posts") both.

Definition outcome : result loc :=
  match answer (session_request [] POST (call_url sent) both) with
  | inr _ => inr 1%positive
  | inl e => inl e
  end.

End chains.
End BothBodies.

(** ** Tables of the methods that share one shape *)

(** The eleven setters of [ConfigBuilder] that mirror their value into the
    store, each with the key it writes and the field of [RequestSpecs] it
    assigns. *)
Definition setters
    : list ((loc → value → M loc) * string * (RequestSpecs → option value)) :=
  [(ConfigBuilder.params, "params", _query_params);
   (ConfigBuilder.data, "data", _data);
   (ConfigBuilder.json_data, "json", _json_data);
   (ConfigBuilder.headers, "headers", _headers);
   (ConfigBuilder.cookies, "cookies", _cookies);
   (ConfigBuilder.auth, "auth", _auth);
   (ConfigBuilder.files, "files", _files);
   (ConfigBuilder.proxies, "proxies", _proxies);
   (ConfigBuilder.stream, "stream", _stream);
   (ConfigBuilder.ssl_verify, "verify", _verify);
   (ConfigBuilder.cert, "cert", _cert)].

(** The verb operations of the dispatcher, each with the HTTP method its
    name stands for. *)
Definition verb_methods {transport : Transport}
    : list ((loc → string → list (string * value) → M loc) * HTTPMethod) :=
  [(RequestBuilder.get, GET); (RequestBuilder.post, POST);
   (RequestBuilder.put, PUT); (RequestBuilder.delete, DELETE);
   (RequestBuilder.patch, PATCH); (RequestBuilder.head, HEAD);
   (RequestBuilder.options, OPTIONS); (RequestBuilder.trace, TRACE);
   (RequestBuilder.connect, CONNECT)].


(** ** Chains of expectations *)

(** The methods of [ExpectBuilder] that are modelled, as data. *)
Inductive expectation : Type :=
  | ExpectStatus (code : Z)
  | ExpectBody (t : string)
  | ExpectBodyContains (v : jsonval)
  | ExpectJson (j : jsonval)
  | ExpectJsonContains (j : jsonval)
  | ExpectJsonPath (json_path_expr : string) (expected_value : jsonval).

(** The method call on the builder. *)
Definition expect {matcher : JSONPath} (self : ExpectBuilderObj) (e : expectation)
    : result ExpectBuilderObj :=
  match e with
  | ExpectStatus code => ExpectBuilder.expect_status self code
  | ExpectBody t => ExpectBuilder.expect_body self t
  | ExpectBodyContains v => ExpectBuilder.expect_body_contains self v
  | ExpectJson j => ExpectBuilder.expect_json self j
  | ExpectJsonContains j => ExpectBuilder.expect_json_contains self j
  | ExpectJsonPath expr v => ExpectBuilder.expect_json_path self expr v
  end.

(** The assertion of [Expect] behind it. *)
Definition check {matcher : JSONPath} (response : Response) (e : expectation)
    : result unit :=
  match e with
  | ExpectStatus code => Expect.status response code
  | ExpectBody t => Expect.body response t
  | ExpectBodyContains v => Expect.body_contains response v
  | ExpectJson j => Expect.json response j
  | ExpectJsonContains j => Expect.json_contains response j
  | ExpectJsonPath expr v => Expect.json_path response expr v
  end.

(** [builder.expect_a(..).expect_b(..)...]: each call on the result of the
    one before. *)
Fixpoint expect_all {matcher : JSONPath} (self : ExpectBuilderObj)
    (es : list expectation) : result ExpectBuilderObj :=
  match es with
  | [] => Ok self
  | e :: rest =>
      let? next := expect self e in
      expect_all next rest
  end.

(** ** Further sample data *)

Module Sample2.


(** A transport that answers every request with status [500]. *)
Definition failing_server : Transport :=
  {| urljoin := fun base endpoint => default EmptyString base ++ endpoint;
     session_request := fun _ _ _ _ => Ok (Sample.response 500 (Ok JNull)) |}.

Definition encoder : JSONEncoder := {| json_dumps := fun _ => "{...}" |}.

(** [given(base).params({"a": 1})], not yet dispatched. *)
Definition builder_with_params : M loc :=
  let! builder := Rip.given (Some SampleChain.base) in
  ConfigBuilder.params builder (Sample.params_a 1).

Definition world_builder : world := (builder_with_params empty_world).1.

Definition builder : ConfigBuilderObj :=
  {| cb_request_specs :=
       ConfigBuilder.set_query_params (Sample.params_a 1)
         (ConfigBuilder.set_base_url (Some SampleChain.base) ConfigBuilder.empty_specs);
     cb_request_config := 1%positive |}.

Definition credentials : value := VTuple [Str "user"; Str "secret"].

Definition text_response (t : string) : Response :=
  {| status_code := 200; headers := []; text := t;
     response_json := Raise (JSONDecodeError "Expecting value") |}.

End Sample2.

(** * Proofs *)

Section store_facts.
Implicit Types (w : world) (c : loc) (p : gmap string value).

Lemma valid_value_accepted v : valid_value v = true ↔ accepted v.
Proof.
  unfold accepted, allowed_kinds, kind_of, valid_value, isinstance, is_None.
  destruct v as [[]| | |]; simpl;
    rewrite ?elem_of_cons, ?elem_of_nil; intuition congruence.
Qed.

Lemma set_configs_id w c p :
  configs w !! c = Some p → set_configs (insert c p) w = w.
Proof.
  intros H. destruct w. unfold set_configs. simpl in *. f_equal.
  by apply insert_id.
Qed.

Lemma set_configs_twice w c p q :
  set_configs (insert c q) (set_configs (insert c p) w) = set_configs (insert c q) w.
Proof. unfold set_configs. simpl. f_equal. apply insert_insert_eq. Qed.

Lemma setitem_run w c p k v :
  configs w !! c = Some p →
  RequestConfig.__setitem__ c k v w = (set_configs (insert c (<[k := v]> p)) w, inr tt).
Proof.
  intros H. unfold RequestConfig.__setitem__, bind, read_config, write_config.
  by rewrite H.
Qed.

Lemma update_cons c k v rest w :
  RequestConfig.update c ((k, v) :: rest) w =
    if valid_value v
    then (do! RequestConfig.__setitem__ c k v in RequestConfig.update c rest) w
    else (w, inl (ValueError (RequestConfig.update_message k))).
Proof.
  unfold valid_value. cbn [RequestConfig.update].
  by destruct (is_None v), (isinstance v _).
Qed.

Lemma update_run kwargs : ∀ w c p,
  configs w !! c = Some p →
  RequestConfig.update c kwargs w =
    (set_configs (insert c (merge_entries kwargs p).1) w, (merge_entries kwargs p).2).
Proof.
  induction kwargs as [|[k v] rest IH]; intros w c p H.
  - simpl. by rewrite set_configs_id.
  - rewrite update_cons. cbn [merge_entries].
    destruct (valid_value v).
    + unfold bind. rewrite (setitem_run _ _ p) by done.
      rewrite (IH _ c (<[k := v]> p)).
      * by rewrite set_configs_twice.
      * simpl. apply lookup_insert_eq.
    + simpl. by rewrite set_configs_id.
Qed.

Lemma merge_entries_valid kwargs : ∀ p,
  Forall (fun kv => accepted kv.2) kwargs →
  merge_entries kwargs p = (write_entries kwargs p, inr tt).
Proof.
  induction kwargs as [|[k v] rest IH]; intros p H; simpl; [done|].
  inversion H as [|? ? Hv Hrest]; subst. simpl in Hv.
  apply valid_value_accepted in Hv. rewrite Hv. by apply IH.
Qed.

Lemma merge_entries_stop pre k v post : ∀ p,
  Forall (fun kv => accepted kv.2) pre → ¬ accepted v →
  merge_entries (pre ++ (k, v) :: post) p =
    (write_entries pre p, inl (ValueError (RequestConfig.update_message k))).
Proof.
  induction pre as [|[k' v'] pre IH]; intros p Hpre Hv; simpl.
  - destruct (valid_value v) eqn:E; [|done].
    by apply valid_value_accepted in E.
  - inversion Hpre as [|? ? Hv' Hrest]; subst. simpl in Hv'.
    apply valid_value_accepted in Hv'. rewrite Hv'. by apply IH.
Qed.

Lemma write_entries_lookup kwargs : ∀ p k v,
  NoDup kwargs.*1 → (k, v) ∈ kwargs → write_entries kwargs p !! k = Some v.
Proof.
  unfold write_entries.
  induction kwargs as [|[k' v'] rest IH] using rev_ind; intros p k v Hnd Hin.
  - by apply elem_of_nil in Hin.
  - rewrite foldl_app. simpl. rewrite fmap_app in Hnd. simpl in Hnd.
    apply NoDup_app in Hnd as (Hnd & Hdisj & _).
    apply elem_of_app in Hin as [Hin|Hin].
    + assert (k ≠ k') as Hne.
      { intros ->. apply (Hdisj k'); [|set_solver].
        apply list_elem_of_fmap. by exists (k', v). }
      rewrite lookup_insert_ne by done. by apply IH.
    + apply list_elem_of_singleton in Hin. inversion Hin; subst.
      apply lookup_insert_eq.
Qed.

End store_facts.

Section string_facts.

Lemma prefix_app (t b : string) : String.prefix t (t ++ b) = true.
Proof.
  induction t as [|a t IH]; simpl.
  - by destruct b.
  - destruct (Ascii.ascii_dec a a); [apply IH | done].
Qed.

Lemma is_substring_unfold (t s : string) :
  is_substring t s =
    String.prefix t s ||
    match s with EmptyString => false | String _ s' => is_substring t s' end.
Proof. by destruct s. Qed.

Lemma is_substring_app (a t b : string) : is_substring t (a ++ t ++ b) = true.
Proof.
  induction a as [|x a IH].
  - change (EmptyString ++ t ++ b) with (t ++ b).
    rewrite is_substring_unfold, prefix_app. done.
  - change (String x a ++ t ++ b) with (String x (a ++ t ++ b)).
    rewrite is_substring_unfold, IH. apply orb_true_r.
Qed.


End string_facts.

Section store_frame.
Implicit Types (w : world) (c : loc) (p : gmap string value).

Lemma fresh_config_new w : configs w !! fresh (dom (configs w)) = None.
Proof. apply not_elem_of_dom, is_fresh. Qed.

Lemma fresh_config_ne w c p :
  configs w !! c = Some p → fresh (dom (configs w)) ≠ c.
Proof. intros H E. rewrite <- E, fresh_config_new in H. done. Qed.

Lemma copy_run w c p :
  configs w !! c = Some p →
  RequestConfig.copy c w =
    (set_configs (insert (fresh (dom (configs w))) p) w,
     inr (fresh (dom (configs w)))).
Proof.
  intros H. pose proof (fresh_config_ne _ _ _ H) as Hne.
  unfold RequestConfig.copy, RequestConfig.__init__, new_config, bind,
    read_config, write_config, ret. simpl.
  rewrite lookup_insert_ne by done. rewrite H.
  simpl. rewrite lookup_insert_eq. rewrite set_configs_twice.
  by rewrite (right_id_L ∅ (∪)).
Qed.

Lemma setitem_frame w c k v c' :
  c' ≠ c → configs (RequestConfig.__setitem__ c k v w).1 !! c' = configs w !! c'.
Proof.
  intros Hne. unfold RequestConfig.__setitem__, bind, read_config, write_config.
  destruct (configs w !! c); simpl; [|done]. by rewrite lookup_insert_ne.
Qed.

Lemma clear_frame w c c' :
  c' ≠ c → configs (RequestConfig.clear c w).1 !! c' = configs w !! c'.
Proof.
  intros Hne. unfold RequestConfig.clear, bind, read_config, write_config.
  destruct (configs w !! c); simpl; [|done]. by rewrite lookup_insert_ne.
Qed.

Lemma update_frame kwargs : ∀ w c c',
  c' ≠ c → configs (RequestConfig.update c kwargs w).1 !! c' = configs w !! c'.
Proof.
  induction kwargs as [|[k v] rest IH]; intros w c c' Hne; [done|].
  rewrite update_cons. destruct (valid_value v); [|done].
  unfold bind. pose proof (setitem_frame w c k v c' Hne) as Hs.
  destruct (RequestConfig.__setitem__ c k v w) as [w1 [e|[]]]; simpl in *; [done|].
  by rewrite IH.
Qed.

Lemma mutate_frame w c m c' :
  c' ≠ c → configs (mutate c m w).1 !! c' = configs w !! c'.
Proof.
  destruct m; simpl; auto using setitem_frame, update_frame, clear_frame.
Qed.

Lemma mutate_all_frame ms : ∀ w c c',
  c' ≠ c → configs (mutate_all c ms w) !! c' = configs w !! c'.
Proof.
  unfold mutate_all.
  induction ms as [|m ms IH]; intros w c c' Hne; simpl; [done|].
  rewrite IH by done. by apply mutate_frame.
Qed.

End store_frame.


(** ** Claims about the store *)



(** C9. [update] is not atomic: when an entry with a disallowed value
    follows entries with allowed ones, the [ValueError] is raised with
    the earlier entries already written to the store. *)
Theorem update_partial_on_error (w : world) (c : loc) (p : gmap string value)
    (pre post : list (string * value)) (k : string) (v : value) :
  configs w !! c = Some p →
  Forall (fun kv => accepted kv.2) pre →
  ¬ accepted v →
  ∃ w', RequestConfig.update c (pre ++ (k, v) :: post) w
          = (w', inl (ValueError (RequestConfig.update_message k)))
        ∧ configs w' !! c = Some (write_entries pre p)
        ∧ (∀ k' v', NoDup pre.*1 → (k', v') ∈ pre →
             RequestConfig.__getitem__ c k' w' = (w', inr v')).
Proof.
  intros H Hpre Hv.
  rewrite (update_run _ _ _ p) by done.
  rewrite merge_entries_stop by done. simpl.
  eexists. split; [reflexivity|]. simpl. rewrite lookup_insert_eq.
  split; [done|]. intros k' v' Hnd Hin.
  unfold RequestConfig.__getitem__, bind, read_config. simpl.
  rewrite lookup_insert_eq. by rewrite (write_entries_lookup _ _ k' v').
Qed.

Lemma update_partial_on_error_witness :
  ∃ w', RequestConfig.update 1%positive
          [("params", Sample.params_a 2); ("auth", VTuple [Str "u"; Str "p"]);
           ("stream", VJson (JBool true))]
          (Sample.store_world ∅)
          = (w', inl (ValueError (RequestConfig.update_message "auth")))
        ∧ configs w' !! 1%positive = Some (<["params" := Sample.params_a 2]> ∅)
        ∧ configs (Sample.store_world ∅) !! 1%positive = Some ∅.
Proof.
  destruct (update_partial_on_error (Sample.store_world ∅) 1%positive ∅
              [("params", Sample.params_a 2)] [("stream", VJson (JBool true))]
              "auth" (VTuple [Str "u"; Str "p"]))
    as (w' & Hrun & Hstore & _).
  - reflexivity.
  - apply Forall_singleton, valid_value_accepted. reflexivity.
  - intros Ha. apply valid_value_accepted in Ha. discriminate Ha.
  - exists w'. split; [exact Hrun|]. split; [exact Hstore|]. reflexivity.
Defined.

(** C8. [copy] of a store returns a new store with the same entries, and
    afterwards no series of [set], [update] and [clear] on one of the two
    changes the entries of the other. *)
Theorem copy_independent (w : world) (s : loc) (p : gmap string value) :
  configs w !! s = Some p →
  ∃ w' s',
    RequestConfig.copy s w = (w', inr s')
    ∧ configs w !! s' = None
    ∧ configs w' !! s' = Some p
    ∧ configs w' !! s = Some p
    ∧ (∀ ms, configs (mutate_all s ms w') !! s' = Some p)
    ∧ (∀ ms, configs (mutate_all s' ms w') !! s = Some p).
Proof.
  intros H. pose proof (fresh_config_ne _ _ _ H) as Hne.
  set (s' := fresh (dom (configs w))) in *.
  exists (set_configs (insert s' p) w), s'.
  assert (configs (set_configs (insert s' p) w) !! s' = Some p) as Hnew.
  { simpl. apply lookup_insert_eq. }
  assert (configs (set_configs (insert s' p) w) !! s = Some p) as Hold.
  { simpl. by rewrite lookup_insert_ne. }
  split; [by apply copy_run|].
  split; [apply fresh_config_new|].
  repeat split; try done.
  - intros ms. by rewrite mutate_all_frame.
  - intros ms. by rewrite mutate_all_frame.
Qed.

Lemma copy_independent_witness :
  ∃ w' s',
    RequestConfig.copy 1%positive (Sample.store_world {["params" := Sample.params_a 1]})
      = (w', inr s')
    ∧ configs w' !! s' = Some {["params" := Sample.params_a 1]}
    ∧ configs (mutate_all 1%positive
                 [MSet "params" (Sample.params_a 2); MClear] w') !! s'
        = Some {["params" := Sample.params_a 1]}
    ∧ configs (mutate_all s' [MUpdate [("json", Sample.params_a 3)]] w') !! 1%positive
        = Some {["params" := Sample.params_a 1]}.
Proof.
  destruct (copy_independent
              (Sample.store_world {["params" := Sample.params_a 1]}) 1%positive
              {["params" := Sample.params_a 1]})
    as (w' & s' & Hrun & _ & Hnew & _ & Hcopy & Horig).
  - reflexivity.
  - exists w', s'. split; [exact Hrun|]. split; [exact Hnew|].
    split; [apply Hcopy | apply Horig].
Defined.

(** ** The dispatcher *)


Section dispatch_facts.
Context {transport : Transport}.
Implicit Types (w : world) (c : loc) (p : gmap string value).

Lemma verbs_shape f :
  f ∈ verbs →
  ∃ name method, f = RequestBuilder.verb (RequestService.verb name method).
Proof.
  unfold verbs. rewrite !elem_of_cons, elem_of_nil.
  intros H.
  repeat (destruct H as [->|H]; [eexists _, _; reflexivity|]).
  done.
Qed.


Lemma bind_keywords_ok f named p :
  (∀ k, k ∈ named → p !! k = None) → bind_keywords f named p = Ok tt.
Proof.
  intros H. unfold bind_keywords.
  destruct (List.find _ named) as [k|] eqn:E; [|done].
  apply find_some in E as [Hin Hk].
  apply list_elem_of_In, H in Hin.
  apply bool_decide_eq_true in Hk. rewrite Hin in Hk. by destruct Hk.
Qed.

Lemma bind_keywords_cases f named p :
  bind_keywords f named p = Ok tt ∨ ∃ msg, bind_keywords f named p = Raise (TypeError msg).
Proof.
  unfold bind_keywords. destruct (List.find _ named); eauto.
Qed.

Lemma request_run (rs : RequestServiceObj) method endpoint p w :
  RequestService._request rs method endpoint p w =
    (set_wire (fun calls =>
                 (calls ++ [mkCall method (urljoin (rs_base_url rs) endpoint) p])%list) w,
     answer (session_request (wire w) method (urljoin (rs_base_url rs) endpoint) p)).
Proof.
  unfold RequestService._request, answer.
  destruct (session_request _ _ _ _) as [[]|]; reflexivity.
Qed.


Lemma service_verb_run name method (rs : RequestServiceObj) endpoint p w :
  reserved_free p →
  RequestService.verb name method rs endpoint p w
    = RequestService._request rs method endpoint p w.
Proof.
  intros H. unfold RequestService.verb, bind, lift.
  rewrite !bind_keywords_ok; [done| |];
    intros k Hk; apply H; revert Hk;
    rewrite !elem_of_cons, !elem_of_nil; tauto.
Qed.


Lemma verb_run name method self rb p endpoint kwargs w :
  request_builders w !! self = Some rb →
  configs w !! rb_request_config rb = Some p →
  (merge_entries kwargs p).2 = inr tt →
  reserved_free (merged kwargs p) →
  let w1 := set_wire (fun calls =>
               (calls ++ [call_of rb method endpoint (merged kwargs p)])%list)
              (set_configs (insert (rb_request_config rb) (merged kwargs p)) w) in
  RequestBuilder.verb (RequestService.verb name method) self endpoint kwargs w =
    match answer (session_request (wire w) method
                    (urljoin (rs_base_url (rb_request rb)) endpoint)
                    (merged kwargs p)) with
    | inr response =>
        (set_request_builders
           (insert self {| rb_request := rb_request rb;
                           rb_request_config := rb_request_config rb;
                           rb_response := Some response |}) w1,
         inr self)
    | inl e => (w1, inl e)
    end.
Proof.
  intros Hrb Hp Hm Hfree. unfold RequestBuilder.verb, bind, read_request_builder.
  rewrite Hrb. rewrite (update_run _ _ _ p) by done. fold (merged kwargs p).
  rewrite Hm. unfold read_config. simpl. rewrite lookup_insert_eq.
  rewrite service_verb_run by done. rewrite request_run. simpl.
  by destruct (answer _).
Qed.

End dispatch_facts.

(** ** Claims about the dispatcher *)



(** A store that no object refers to does not change what an operation
    of the dispatcher does. *)
Section dead_store.
Context {transport : Transport}.
Implicit Types (w : world) (c d : loc) (p q : gmap string value).

Lemma set_configs_commute w c d p q :
  d ≠ c →
  set_configs (insert c p) (set_configs (insert d q) w)
    = set_configs (insert d q) (set_configs (insert c p) w).
Proof.
  intros Hne. unfold set_configs. simpl. f_equal. by apply insert_insert_ne.
Qed.

Lemma setitem_dead w c d q k v :
  d ≠ c →
  RequestConfig.__setitem__ c k v (set_configs (insert d q) w)
    = (set_configs (insert d q) (RequestConfig.__setitem__ c k v w).1,
       (RequestConfig.__setitem__ c k v w).2).
Proof.
  intros Hne. unfold RequestConfig.__setitem__, bind, read_config, write_config.
  simpl. rewrite lookup_insert_ne by done.
  destruct (configs w !! c); simpl; [|done]. by rewrite set_configs_commute.
Qed.

Lemma update_dead kwargs : ∀ w c d q,
  d ≠ c →
  RequestConfig.update c kwargs (set_configs (insert d q) w)
    = (set_configs (insert d q) (RequestConfig.update c kwargs w).1,
       (RequestConfig.update c kwargs w).2).
Proof.
  induction kwargs as [|[k v] rest IH]; intros w c d q Hne; [done|].
  rewrite !update_cons. destruct (valid_value v); [|done].
  unfold bind. rewrite setitem_dead by done.
  destruct (RequestConfig.__setitem__ c k v w) as [w1 [e|[]]]; simpl; [done|].
  by apply IH.
Qed.

Lemma service_verb_dead name method (rs : RequestServiceObj) endpoint p w d q :
  RequestService.verb name method rs endpoint p (set_configs (insert d q) w)
    = (set_configs (insert d q) (RequestService.verb name method rs endpoint p w).1,
       (RequestService.verb name method rs endpoint p w).2).
Proof.
  unfold RequestService.verb, bind, lift.
  destruct (bind_keywords name _ p); [done|].
  destruct (bind_keywords "_request" _ p); [done|].
  by rewrite !request_run.
Qed.

Lemma verb_dead name method self rb endpoint kwargs w d q :
  request_builders w !! self = Some rb →
  d ≠ rb_request_config rb →
  RequestBuilder.verb (RequestService.verb name method) self endpoint kwargs
      (set_configs (insert d q) w)
    = (set_configs (insert d q)
         (RequestBuilder.verb (RequestService.verb name method)
            self endpoint kwargs w).1,
       (RequestBuilder.verb (RequestService.verb name method)
          self endpoint kwargs w).2).
Proof.
  intros Hrb Hne. unfold RequestBuilder.verb, bind, read_request_builder.
  simpl. rewrite Hrb. rewrite update_dead by done.
  destruct (RequestConfig.update _ kwargs w) as [w1 [e|[]]]; simpl; [done|].
  unfold read_config. simpl. rewrite lookup_insert_ne by done.
  destruct (configs w1 !! rb_request_config rb) as [p1|]; simpl; [|done].
  rewrite service_verb_dead.
  by destruct (RequestService.verb name method _ endpoint p1 w1) as [w2 [e|r]].
Qed.

End dead_store.

(** C10. [copy] of a dispatcher returns the dispatcher itself; the
    dispatcher, the store it refers to and that store's entries are as
    before, the one trace being a new store that nothing refers to, and
    every verb operation afterwards does what it would have done without
    the [copy]. *)
Theorem dispatcher_copy_no_effect {transport : Transport}
    (self : loc) (rb : RequestBuilderObj) (p : gmap string value) (w : world) :
  request_builders w !! self = Some rb →
  configs w !! rb_request_config rb = Some p →
  ∃ w' dead,
    RequestBuilder.copy self w = (w', inr self)
    ∧ request_builders w' = request_builders w
    ∧ config_builders w' = config_builders w
    ∧ wire w' = wire w
    ∧ configs w !! dead = None
    ∧ configs w' = <[dead := p]> (configs w)
    ∧ configs w' !! rb_request_config rb = Some p
    ∧ ∀ f endpoint kwargs, f ∈ verbs →
        f self endpoint kwargs w'
          = (set_configs (insert dead p) (f self endpoint kwargs w).1,
             (f self endpoint kwargs w).2).
Proof.
  intros Hrb Hp. pose proof (fresh_config_ne _ _ _ Hp) as Hne.
  exists (set_configs (insert (fresh (dom (configs w))) p) w),
         (fresh (dom (configs w))).
  split.
  { unfold RequestBuilder.copy, bind, read_request_builder. rewrite Hrb.
    by rewrite (copy_run _ _ p). }
  repeat split.
  - apply fresh_config_new.
  - simpl. by rewrite lookup_insert_ne.
  - intros f endpoint kwargs Hf.
    destruct (verbs_shape f Hf) as (name & method & ->).
    by apply (verb_dead name method self rb).
Qed.

Lemma dispatcher_copy_no_effect_witness :
  ∃ w',
    RequestBuilder.copy 1%positive SampleChain.world_with_params = (w', inr 1%positive)
    ∧ request_builders w' = request_builders SampleChain.world_with_params
    ∧ configs w' !! 1%positive = Some {["params" := Sample.params_a 1]}
    ∧ wire (@RequestBuilder.get Sample.transport 1%positive "posts" [] w').1
      = wire (@RequestBuilder.get Sample.transport 1%positive "posts" []
                SampleChain.world_with_params).1.
Proof.
  destruct (@dispatcher_copy_no_effect Sample.transport 1%positive
              SampleChain.dispatcher {["params" := Sample.params_a 1]}
              SampleChain.world_with_params)
    as (w' & dead & Hrun & Hrb & _ & _ & _ & _ & Hstore & Hverb).
  - reflexivity.
  - reflexivity.
  - exists w'. split; [exact Hrun|]. split; [exact Hrb|]. split; [exact Hstore|].
    rewrite (Hverb (@RequestBuilder.get Sample.transport) "posts" []
               (list_elem_of_here _ _)).
    reflexivity.
Defined.

Section then_facts.
Implicit Types (w : world).

Lemma then_unset w self rb :
  request_builders w !! self = Some rb →
  rb_response rb = None →
  RequestBuilder.then_ self w = (w, inl (AttributeError no_response_message)).
Proof.
  intros Hrb Hnone. unfold RequestBuilder.then_, bind, read_request_builder.
  by rewrite Hrb, Hnone.
Qed.

Lemma housekeep_builders w self op :
  request_builders (housekeep self op w).1 = request_builders w.
Proof.
  destruct op; simpl;
    unfold RequestBuilder.close, RequestBuilder.clear, RequestBuilder.copy,
      RequestConfig.clear, RequestConfig.copy, RequestConfig.__init__, new_config,
      bind, read_request_builder, read_config, write_config, ret;
    repeat (case_match; simplify_eq/=); done.
Qed.

Lemma housekeep_all_builders ops : ∀ w self,
  request_builders (housekeep_all self ops w) = request_builders w.
Proof.
  unfold housekeep_all.
  induction ops as [|op ops IH]; intros w self; simpl; [done|].
  by rewrite IH, housekeep_builders.
Qed.

End then_facts.

(** C2. A dispatcher as its constructor leaves it, whatever [close],
    [clear] and [copy] calls follow, has no captured response, and
    [then] on it raises: the read of the unassigned attribute is an
    [AttributeError], the error the specification calls UsageError. *)
Theorem then_before_verb_raises (request : RequestServiceObj) (request_config : loc)
    (ops : list housekeeping) (w : world) :
  ∃ w1 self,
    RequestBuilder.__init__ request request_config w = (w1, inr self)
    ∧ RequestBuilder.then_ self (housekeep_all self ops w1)
      = (housekeep_all self ops w1, inl (AttributeError no_response_message)).
Proof.
  eexists _, _. split; [reflexivity|].
  eapply then_unset.
  - rewrite housekeep_all_builders. simpl. apply lookup_insert_eq.
  - reflexivity.
Qed.

(** [given().when().then()]: no verb call before [then]. *)
Example then_right_after_when :
  (let! builder := Rip.given None in
   let! dispatcher := ConfigBuilder.when builder in
   RequestBuilder.then_ dispatcher) empty_world
  = (((let! builder := Rip.given None in ConfigBuilder.when builder) empty_world).1,
     inl (AttributeError no_response_message)).
Proof. reflexivity. Qed.

(** ** Body data together with a JSON body *)

Section both_bodies.
Import BothBodies.

Lemma configured_run :
  ∃ w, configured empty_world = (w, inr 1%positive)
       ∧ request_builders w !! 1%positive = Some dispatcher
       ∧ configs w !! 1%positive = Some both
       ∧ wire w = [].
Proof.
  exists (configured empty_world).1. split_and!; vm_compute; reflexivity.
Qed.

Lemma bare_run :
  ∃ w, bare empty_world = (w, inr 1%positive)
       ∧ request_builders w !! 1%positive = Some dispatcher
       ∧ configs w !! 1%positive = Some ∅
       ∧ wire w = [].
Proof.
  exists (bare empty_world).1. split_and!; vm_compute; reflexivity.
Qed.

Lemma merge_both :
  merge_entries [("data", body_data); ("json", json_body)] ∅ = (both, inr tt).
Proof. vm_compute. reflexivity. Qed.

Context {transport : Transport}.

Lemma post_both_runs (w : world) (p : gmap string value)
    (kwargs : list (string * value)) :
  request_builders w !! 1%positive = Some dispatcher →
  configs w !! 1%positive = Some p →
  wire w = [] →
  merge_entries kwargs p = (both, inr tt) →
  wire (RequestBuilder.post 1%positive "/posts" kwargs w).1 = [sent]
  ∧ (RequestBuilder.post 1%positive "/posts" kwargs w).2 = outcome.
Proof.
  intros Hrb Hp Hwire Hm.
  unfold RequestBuilder.post, RequestService.post.
  rewrite (verb_run "post" POST 1%positive dispatcher p); try done.
  - unfold merged, outcome, sent, call_of. rewrite Hm, Hwire. simpl.
    destruct (answer _); simpl; by rewrite Hwire.
  - by rewrite Hm.
  - unfold merged. rewrite Hm. simpl.
    intros k. rewrite !elem_of_cons, elem_of_nil.
    intros [->|[->|[->|[]]]]; reflexivity.
Qed.

End both_bodies.

(** C1 (the code departs from it). With both [data] and [json] in the
    configuration, set by the builder or by the call, [post] raises
    nothing of its own: the session is called, with both entries, and the
    call ends as the session's answer says.  [_handle_data], which
    rejects exactly such options, is not on the path. *)
Theorem data_and_json_reach_transport {transport : Transport} {encoder : JSONEncoder} :
  wire (BothBodies.by_setters empty_world).1 = [BothBodies.sent]
  ∧ (BothBodies.by_setters empty_world).2 = BothBodies.outcome
  ∧ wire (BothBodies.by_overrides empty_world).1 = [BothBodies.sent]
  ∧ (BothBodies.by_overrides empty_world).2 = BothBodies.outcome
  ∧ call_kwargs BothBodies.sent !! "data" = Some BothBodies.body_data
  ∧ call_kwargs BothBodies.sent !! "json" = Some BothBodies.json_body
  ∧ RequestService._handle_data (call_kwargs BothBodies.sent)
    = Raise (ValueError "At least one of 'data' or 'json' arguments must be provided").
Proof.
  destruct configured_run as (w1 & Hrun1 & Hrb1 & Hp1 & Hwire1).
  destruct bare_run as (w2 & Hrun2 & Hrb2 & Hp2 & Hwire2).
  pose proof (post_both_runs w1 BothBodies.both [] Hrb1 Hp1 Hwire1
                eq_refl) as [Hs1 Hs2].
  pose proof (post_both_runs w2 ∅
                [("data", BothBodies.body_data); ("json", BothBodies.json_body)]
                Hrb2 Hp2 Hwire2 merge_both) as [Ho1 Ho2].
  unfold BothBodies.by_setters, BothBodies.by_overrides, bind.
  rewrite Hrun1, Hrun2.
  split_and!; try assumption; vm_compute; reflexivity.
Qed.

(** ** Claims about the expectations *)

Section expect_facts.

Lemma status_ok_iff (self : Response) :
  Expect.status_ok self = Ok tt
  ↔ ¬ (400 ≤ status_code self < 600).
Proof.
  unfold Expect.status_ok, assertpy.is_true, Response_ok, raise_for_status.
  destruct (400 <=? status_code self) eqn:E1;
    destruct (status_code self <? 600) eqn:E2; simpl;
    rewrite ?Z.leb_le, ?Z.leb_gt, ?Z.ltb_lt, ?Z.ltb_ge in *;
    (split; [intros H; try discriminate H; lia | intros H; try reflexivity; lia]).
Qed.

Lemma is_equal_to_cases (a b : jsonval) :
  (assertpy.is_equal_to a b = Ok tt ∧ py_eq a b = true)
  ∨ (assertpy.is_equal_to a b = Raise AssertionError ∧ py_eq a b = false).
Proof. unfold assertpy.is_equal_to. destruct (py_eq a b); auto. Qed.

Lemma map_match_value (found : list jsonval) :
  map match_value (map mkJsonPathMatch found) = found.
Proof. induction found as [|x xs IH]; simpl; [done | by rewrite IH]. Qed.

Context {matcher : JSONPath}.

Lemma assert_matches_spec (matches : list JsonPathMatch) (expected : jsonval) :
  (Expect.assert_matches matches expected = Ok tt
   ∧ Forall (fun m => py_eq (match_value m) expected = true) matches)
  ∨ (Expect.assert_matches matches expected = Raise AssertionError
     ∧ Exists (fun m => py_eq (match_value m) expected = false) matches).
Proof.
  induction matches as [|m rest IH]; simpl.
  - left. split; [done | constructor].
  - destruct (is_equal_to_cases (match_value m) expected) as [[-> E]|[-> E]]; simpl.
    + destruct IH as [[-> H]|[-> H]].
      * left. split; [done | by constructor].
      * right. split; [done | by apply Exists_cons_tl].
    + right. split; [done | by apply Exists_cons_hd].
Qed.

End expect_facts.

(** C3 (the code departs from it). [status_ok] tests [response.ok], which
    [requests] makes true for every status outside [400, 599]: a response
    with status 304, outside [200, 299], passes. *)
Theorem status_ok_passes_304 :
  Expect.status_ok (Sample.response 304 (Ok JNull)) = Ok tt
  ∧ RequestService._status_code_is_success (Sample.response 304 (Ok JNull)) = false
  ∧ ¬ (200 ≤ status_code (Sample.response 304 (Ok JNull)) ≤ 299).
Proof. split; [reflexivity|]. split; [reflexivity|]. simpl. lia. Qed.

(** C4. When the matcher yields the matches [matches] for an expression,
    [json_path] returns normally exactly when the value of every match
    equals the expected value, and raises an assertion mismatch
    otherwise; with no match it returns normally; and for a non-empty
    expression the matches are those [jsonpath.findall] finds in the
    parsed JSON body. *)
Theorem json_path_checks_every_match {matcher : JSONPath}
    (self : Response) (json_path_expr : string) (expected_value : jsonval)
    (matches : list JsonPathMatch) :
  Expect._json_path_matches self json_path_expr = Ok matches →
  (Expect.json_path self json_path_expr expected_value = Ok tt
   ↔ ∀ m, m ∈ matches → py_eq (match_value m) expected_value = true)
  ∧ (Expect.json_path self json_path_expr expected_value = Ok tt
     ∨ Expect.json_path self json_path_expr expected_value = Raise AssertionError)
  ∧ (matches = [] → Expect.json_path self json_path_expr expected_value = Ok tt)
  ∧ (json_path_expr ≠ EmptyString →
     ∃ parsed, response_json self = Ok parsed
               ∧ findall json_path_expr parsed = Ok (map match_value matches)).
Proof.
  intros Hm. unfold Expect.json_path. rewrite Hm. simpl.
  pose proof (assert_matches_spec matches expected_value) as Hcases.
  repeat split.
  - intros Hok. apply Forall_forall.
    destruct Hcases as [[_ H]|[Hr _]]; [done|]. rewrite Hr in Hok. discriminate Hok.
  - intros Hall. apply Forall_forall in Hall.
    destruct Hcases as [[Hr _]|[_ H]]; [done|].
    apply Exists_exists in H as (m & Hin & Hne).
    rewrite (proj1 (Forall_forall _ _) Hall m Hin) in Hne. discriminate Hne.
  - destruct Hcases as [[Hr _]|[Hr _]]; auto.
  - by intros ->.
  - intros Hne. unfold Expect._json_path_matches in Hm.
    destruct (String.eqb json_path_expr EmptyString) eqn:E.
    { apply String.eqb_eq in E. congruence. }
    destruct (response_json self) as [e|parsed]; [discriminate Hm|]. simpl in Hm.
    destruct (findall json_path_expr parsed) as [e|found] eqn:Ef; [discriminate Hm|].
    simpl in Hm. inversion Hm; subst.
    exists parsed. split; [done|]. by rewrite map_match_value.
Qed.

Lemma json_path_checks_every_match_witness :
  @Expect.json_path Sample.member_path
    (Sample.response 200 (Ok (JDict [("userId", JInt 1); ("id", JInt 1)])))
    "$.userId" (JInt 1) = Ok tt
  ∧ @Expect.json_path Sample.member_path
      (Sample.response 200 (Ok (JDict []))) "$.userId" (JInt 1) = Ok tt.
Proof.
  split.
  - destruct (@json_path_checks_every_match Sample.member_path
                (Sample.response 200 (Ok (JDict [("userId", JInt 1); ("id", JInt 1)])))
                "$.userId" (JInt 1) [mkJsonPathMatch (JInt 1)])
      as (Hiff & _).
    + reflexivity.
    + apply Hiff. intros m Hm. apply list_elem_of_singleton in Hm.
      rewrite Hm. reflexivity.
  - destruct (@json_path_checks_every_match Sample.member_path
                (Sample.response 200 (Ok (JDict []))) "$.userId" (JInt 1) [])
      as (_ & _ & Hzero & _).
    + reflexivity.
    + apply Hzero. reflexivity.
Defined.

(** The empty expression: no match, and the body is not even parsed. *)
Lemma json_path_empty_expression {matcher : JSONPath}
    (self : Response) (expected_value : jsonval) :
  Expect.json_path self EmptyString expected_value = Ok tt.
Proof. reflexivity. Qed.

(** C7 as stated fails: against the body [{"a": 1, "b": 2}] the
    expectation [json_contains({"a": 1})] does not pass; the membership
    test hashes the expected mapping and raises [TypeError]. *)
Lemma json_contains_subset_counterexample :
  Expect.json_contains
    (Sample.response 200 (Ok (JDict [("a", JInt 1); ("b", JInt 2)])))
    (JDict [("a", JInt 1)])
  = Raise (TypeError "unhashable type: 'dict'")
  ∧ Expect.json_contains
      (Sample.response 200 (Ok (JDict [("a", JInt 1); ("b", JInt 2)])))
      (JDict [("a", JInt 1)])
    ≠ Ok tt.
Proof. split; [reflexivity | discriminate]. Qed.

(** A mapping is never found in a mapping body, whatever their entries. *)
Lemma json_contains_mapping_in_mapping (self : Response)
    (entries subset : list (string * jsonval)) :
  response_json self = Ok (JDict entries) →
  Expect.json_contains self (JDict subset)
    = Raise (TypeError "unhashable type: 'dict'").
Proof. intros H. unfold Expect.json_contains. by rewrite H. Qed.

(** C7, amended. Against a body that is a sequence, [json_contains]
    passes exactly when some element of the body equals the expected
    value as a whole, and raises an assertion mismatch otherwise. *)
Theorem json_contains_is_membership (self : Response) (items : list jsonval)
    (expected : jsonval) :
  response_json self = Ok (JList items) →
  (Expect.json_contains self expected = Ok tt
   ↔ ∃ item, item ∈ items ∧ py_eq item expected = true)
  ∧ (Expect.json_contains self expected = Ok tt
     ∨ Expect.json_contains self expected = Raise AssertionError).
Proof.
  intros H. unfold Expect.json_contains, assertpy.contains. rewrite H. simpl.
  destruct (existsb (fun item => py_eq item expected) items) eqn:E.
  - split; [|by left]. split; [intros _|done].
    apply existsb_exists in E as (item & Hin & Heq).
    exists item. split; [by apply list_elem_of_In | done].
  - split; [|by right]. split; [done|].
    intros (item & Hin & Heq).
    assert (existsb (fun item => py_eq item expected) items = true) as E'.
    { apply existsb_exists. exists item. split; [by apply list_elem_of_In | done]. }
    congruence.
Qed.

Lemma json_contains_is_membership_witness :
  Expect.json_contains
    (Sample.response 200 (Ok (JList [JDict [("a", JInt 1)]; JDict [("b", JInt 2)]])))
    (JDict [("a", JInt 1)]) = Ok tt
  ∧ Expect.json_contains
      (Sample.response 200 (Ok (JList [JDict [("a", JInt 1); ("b", JInt 2)]])))
      (JDict [("a", JInt 1)]) = Raise AssertionError.
Proof.
  split.
  - destruct (json_contains_is_membership
                (Sample.response 200
                   (Ok (JList [JDict [("a", JInt 1)]; JDict [("b", JInt 2)]])))
                [JDict [("a", JInt 1)]; JDict [("b", JInt 2)]]
                (JDict [("a", JInt 1)])) as [Hiff _].
    + reflexivity.
    + apply Hiff. exists (JDict [("a", JInt 1)]).
      split; [apply list_elem_of_here | reflexivity].
  - destruct (json_contains_is_membership
                (Sample.response 200
                   (Ok (JList [JDict [("a", JInt 1); ("b", JInt 2)]])))
                [JDict [("a", JInt 1); ("b", JInt 2)]]
                (JDict [("a", JInt 1)])) as [Hiff [Hok|Hfail]].
    + reflexivity.
    + apply Hiff in Hok. destruct Hok as (item & Hin & Heq).
      apply list_elem_of_singleton in Hin. rewrite Hin in Heq. discriminate Heq.
    + exact Hfail.
Defined.

(** * Further properties of the code *)

(** ** The store: reads, writes and merges *)

Section store_extras.
Implicit Types (w : world) (c : loc) (p : gmap string value).

Lemma getitem_run w c p k :
  configs w !! c = Some p →
  RequestConfig.__getitem__ c k w
    = (w, match p !! k with Some v => inr v | None => inl (KeyError k) end).
Proof.
  intros H. unfold RequestConfig.__getitem__, bind, read_config. rewrite H.
  by destruct (p !! k).
Qed.

Lemma clear_run w c p :
  configs w !! c = Some p →
  RequestConfig.clear c w = (set_configs (insert c ∅) w, inr tt).
Proof.
  intros H. unfold RequestConfig.clear, bind, read_config, write_config.
  by rewrite H.
Qed.

Lemma write_entries_snoc kwargs k v p :
  write_entries (kwargs ++ [(k, v)]) p = <[k := v]> (write_entries kwargs p).
Proof. unfold write_entries. by rewrite foldl_app. Qed.

Lemma write_entries_union kwargs p :
  write_entries kwargs p = list_to_map (reverse kwargs) ∪ p.
Proof.
  induction kwargs as [|[k v] rest IH] using rev_ind.
  - simpl. by rewrite (left_id_L ∅ (∪)).
  - rewrite write_entries_snoc, IH, reverse_app. simpl.
    by rewrite insert_union_l.
Qed.

Lemma write_entries_other kwargs p k :
  k ∉ kwargs.*1 → write_entries kwargs p !! k = p !! k.
Proof.
  induction kwargs as [|[k' v'] rest IH] using rev_ind; intros Hk; [done|].
  rewrite write_entries_snoc. rewrite fmap_app in Hk. simpl in Hk.
  rewrite elem_of_app, list_elem_of_singleton in Hk.
  rewrite lookup_insert_ne by (intros ->; tauto).
  apply IH. tauto.
Qed.

Lemma write_entries_twice kwargs p :
  write_entries kwargs (write_entries kwargs p) = write_entries kwargs p.
Proof.
  rewrite !write_entries_union.
  by rewrite (assoc_L (∪)), (idemp_L (∪)).
Qed.

Lemma merge_entries_keeps kwargs : ∀ p,
  (∀ k, is_Some (p !! k) → is_Some ((merge_entries kwargs p).1 !! k))
  ∧ (∀ k, k ∉ kwargs.*1 → (merge_entries kwargs p).1 !! k = p !! k).
Proof.
  induction kwargs as [|[k' v'] rest IH]; intros p; simpl; [done|].
  destruct (valid_value v'); simpl; [|done].
  destruct (IH (<[k' := v']> p)) as [Hdom Hother].
  split.
  - intros k Hk. apply Hdom. rewrite lookup_insert.
    case_decide; [by eexists | done].
  - intros k Hk. rewrite not_elem_of_cons in Hk. destruct Hk as [Hne Hk].
    rewrite Hother by done. by rewrite lookup_insert_ne.
Qed.

End store_extras.

(** X1. [clear] empties a store whatever it held: afterwards reading any
    key raises [KeyError] for that key. *)
Theorem clear_then_getitem (w : world) (c : loc) (p : gmap string value) :
  configs w !! c = Some p →
  ∃ w', RequestConfig.clear c w = (w', inr tt)
        ∧ configs w' !! c = Some ∅
        ∧ ∀ k, RequestConfig.__getitem__ c k w' = (w', inl (KeyError k)).
Proof.
  intros H. rewrite (clear_run _ _ p) by done.
  eexists. split; [reflexivity|].
  assert (configs (set_configs (insert c ∅) w) !! c = Some ∅) as Hc.
  { simpl. apply lookup_insert_eq. }
  split; [done|]. intros k. by rewrite (getitem_run _ _ ∅).
Qed.

Lemma clear_then_getitem_witness :
  ∃ w', RequestConfig.clear 1%positive
          (Sample.store_world {["params" := Sample.params_a 1]}) = (w', inr tt)
        ∧ RequestConfig.__getitem__ 1%positive "params" w' = (w', inl (KeyError "params")).
Proof.
  destruct (clear_then_getitem (Sample.store_world {["params" := Sample.params_a 1]})
              1%positive {["params" := Sample.params_a 1]}) as (w' & Hrun & _ & Hget).
  - reflexivity.
  - exists w'. split; [exact Hrun | apply Hget].
Defined.

(** X2. [__setitem__] stores any value under a key, with no test of its
    type (a tuple, which [update] rejects, included); reading the key
    gives the value back, and reading any other key gives what it gave
    before. *)
Theorem setitem_then_getitem (w : world) (c : loc) (p : gmap string value)
    (k : string) (v : value) :
  configs w !! c = Some p →
  ∃ w', RequestConfig.__setitem__ c k v w = (w', inr tt)
        ∧ RequestConfig.__getitem__ c k w' = (w', inr v)
        ∧ ∀ k', k' ≠ k →
            (RequestConfig.__getitem__ c k' w').2 = (RequestConfig.__getitem__ c k' w).2.
Proof.
  intros H. rewrite (setitem_run _ _ p) by done.
  eexists. split; [reflexivity|].
  assert (configs (set_configs (insert c (<[k := v]> p)) w) !! c
          = Some (<[k := v]> p)) as Hc.
  { simpl. apply lookup_insert_eq. }
  split.
  - rewrite (getitem_run _ _ _ _ Hc). by rewrite lookup_insert_eq.
  - intros k' Hne. rewrite (getitem_run _ _ _ _ Hc), (getitem_run _ _ _ _ H).
    simpl. by rewrite lookup_insert_ne.
Qed.

Lemma setitem_then_getitem_witness :
  ∃ w', RequestConfig.__setitem__ 1%positive "auth" (VTuple [Str "u"; Str "p"])
          (Sample.store_world ∅) = (w', inr tt)
        ∧ RequestConfig.__getitem__ 1%positive "auth" w'
          = (w', inr (VTuple [Str "u"; Str "p"])).
Proof.
  destruct (setitem_then_getitem (Sample.store_world ∅) 1%positive ∅ "auth"
              (VTuple [Str "u"; Str "p"])) as (w' & Hrun & Hget & _).
  - reflexivity.
  - exists w'. split; [exact Hrun | exact Hget].
Defined.

(** X3. [update] with entries whose values are all accepted succeeds;
    afterwards every key of the call reads the value given for it and
    every other key reads what it read before. *)
Theorem update_all_accepted (w : world) (c : loc) (p : gmap string value)
    (kwargs : list (string * value)) :
  configs w !! c = Some p →
  Forall (fun kv => accepted kv.2) kwargs →
  NoDup kwargs.*1 →
  ∃ w', RequestConfig.update c kwargs w = (w', inr tt)
        ∧ (∀ k v, (k, v) ∈ kwargs → RequestConfig.__getitem__ c k w' = (w', inr v))
        ∧ (∀ k, k ∉ kwargs.*1 →
             (RequestConfig.__getitem__ c k w').2 = (RequestConfig.__getitem__ c k w).2).
Proof.
  intros H Hok Hnd. rewrite (update_run _ _ _ p) by done.
  rewrite merge_entries_valid by done. simpl.
  eexists. split; [reflexivity|].
  assert (configs (set_configs (insert c (write_entries kwargs p)) w) !! c
          = Some (write_entries kwargs p)) as Hc.
  { simpl. apply lookup_insert_eq. }
  split.
  - intros k v Hin. rewrite (getitem_run _ _ _ _ Hc).
    by rewrite (write_entries_lookup _ _ k v).
  - intros k Hk. rewrite (getitem_run _ _ _ _ Hc), (getitem_run _ _ _ _ H).
    simpl. by rewrite write_entries_other.
Qed.

Lemma update_all_accepted_witness :
  ∃ w', RequestConfig.update 1%positive
          [("params", Sample.params_a 2); ("stream", VJson (JBool true))]
          (Sample.store_world {["params" := Sample.params_a 1]}) = (w', inr tt)
        ∧ RequestConfig.__getitem__ 1%positive "params" w' = (w', inr (Sample.params_a 2))
        ∧ RequestConfig.__getitem__ 1%positive "stream" w' = (w', inr (VJson (JBool true))).
Proof.
  destruct (update_all_accepted (Sample.store_world {["params" := Sample.params_a 1]})
              1%positive {["params" := Sample.params_a 1]}
              [("params", Sample.params_a 2); ("stream", VJson (JBool true))])
    as (w' & Hrun & Hget & _).
  - reflexivity.
  - repeat constructor; apply valid_value_accepted; reflexivity.
  - apply NoDup_cons. split; [|apply NoDup_singleton].
    rewrite list_elem_of_singleton. discriminate.
  - exists w'. split; [exact Hrun|]. split; apply Hget.
    + apply list_elem_of_here.
    + apply list_elem_of_further, list_elem_of_here.
Defined.

(** X4. Whether [update] returns or raises, it removes no key from the
    store and leaves every key that is not among its entries with the
    value it had. *)
Theorem update_keeps_other_keys (w : world) (c : loc) (p : gmap string value)
    (kwargs : list (string * value)) :
  configs w !! c = Some p →
  ∃ p', configs (RequestConfig.update c kwargs w).1 !! c = Some p'
        ∧ (∀ k, is_Some (p !! k) → is_Some (p' !! k))
        ∧ (∀ k, k ∉ kwargs.*1 → p' !! k = p !! k).
Proof.
  intros H. rewrite (update_run _ _ _ p) by done. simpl.
  exists (merge_entries kwargs p).1. rewrite lookup_insert_eq.
  split; [done|]. apply merge_entries_keeps.
Qed.

Lemma update_keeps_other_keys_witness :
  ∃ p', configs (RequestConfig.update 1%positive
                   [("auth", VTuple [Str "u"; Str "p"])]
                   (Sample.store_world {["params" := Sample.params_a 1]})).1
          !! 1%positive = Some p'
        ∧ p' !! "params" = Some (Sample.params_a 1).
Proof.
  destruct (update_keeps_other_keys
              (Sample.store_world {["params" := Sample.params_a 1]}) 1%positive
              {["params" := Sample.params_a 1]} [("auth", VTuple [Str "u"; Str "p"])])
    as (p' & Hstore & _ & Hother).
  - reflexivity.
  - exists p'. split; [exact Hstore|]. rewrite Hother; [reflexivity|].
    simpl. rewrite list_elem_of_singleton. discriminate.
Defined.

(** X5. Repeating an [update] that succeeded, with the same entries,
    succeeds again and changes nothing. *)
Theorem update_idempotent (w : world) (c : loc) (p : gmap string value)
    (kwargs : list (string * value)) :
  configs w !! c = Some p →
  Forall (fun kv => accepted kv.2) kwargs →
  ∃ w', RequestConfig.update c kwargs w = (w', inr tt)
        ∧ RequestConfig.update c kwargs w' = (w', inr tt).
Proof.
  intros H Hok. rewrite (update_run _ _ _ p) by done.
  rewrite merge_entries_valid by done. simpl.
  eexists. split; [reflexivity|].
  assert (configs (set_configs (insert c (write_entries kwargs p)) w) !! c
          = Some (write_entries kwargs p)) as Hc.
  { simpl. apply lookup_insert_eq. }
  rewrite (update_run _ _ _ _ Hc). rewrite merge_entries_valid by done. simpl.
  rewrite write_entries_twice. by rewrite set_configs_id.
Qed.

Lemma update_idempotent_witness :
  ∃ w', RequestConfig.update 1%positive [("params", Sample.params_a 2)]
          (Sample.store_world ∅) = (w', inr tt)
        ∧ RequestConfig.update 1%positive [("params", Sample.params_a 2)] w'
          = (w', inr tt).
Proof.
  apply (update_idempotent (Sample.store_world ∅) 1%positive ∅
           [("params", Sample.params_a 2)]).
  - reflexivity.
  - apply Forall_singleton, valid_value_accepted. reflexivity.
Defined.

(** ** The specification builder *)

Section builder_extras.
Implicit Types (w : world) (c : loc) (p : gmap string value).

Lemma setter_run (field : value → RequestSpecs → RequestSpecs) key self cb p x w :
  is_None x = false →
  config_builders w !! self = Some cb →
  configs w !! cb_request_config cb = Some p →
  ConfigBuilder.setter field key self x w
    = (set_configs (insert (cb_request_config cb) (<[key := x]> p))
         (set_config_builders
            (insert self {| cb_request_specs := field x (cb_request_specs cb);
                            cb_request_config := cb_request_config cb |}) w),
       inr self).
Proof.
  intros Hx Hcb Hp.
  unfold ConfigBuilder.setter, bind, read_config_builder, write_config_builder.
  rewrite Hx, Hcb. simpl.
  by rewrite (setitem_run _ _ p).
Qed.

Lemma setters_shape f key field :
  (f, key, field) ∈ setters →
  ∃ upd, f = ConfigBuilder.setter upd key
         ∧ (∀ x s, field (upd x s) = Some x)
         ∧ (∀ x s, _base_url (upd x s) = _base_url s)
         ∧ (∀ g key' field', (g, key', field') ∈ setters → key' ≠ key →
              ∀ x s, field' (upd x s) = field' s).
Proof.
  intros H. apply list_elem_of_In in H. unfold setters in H. simpl in H.
  repeat (destruct H as [H|H];
    [ injection H as <- <- <-; eexists; split; [reflexivity|];
      split; [reflexivity|]; split; [reflexivity|];
      intros g key' field' Hg Hne x s;
      apply list_elem_of_In in Hg; unfold setters in Hg; simpl in Hg;
      repeat (destruct Hg as [Hg|Hg];
              [injection Hg as <- <- <-; first [reflexivity | by destruct Hne]|]);
      by destruct Hg
    |]).
  by destruct H.
Qed.

Lemma fresh_after_insert {A} (m : gmap loc A) (l : loc) (x : A) :
  fresh (dom (<[l := x]> m)) ≠ l.
Proof.
  intros E. apply (is_fresh (dom (<[l := x]> m))). rewrite E.
  apply elem_of_dom. rewrite lookup_insert_eq. by eexists.
Qed.

Lemma fresh_builder_new w : config_builders w !! fresh (dom (config_builders w)) = None.
Proof. apply not_elem_of_dom, is_fresh. Qed.

Lemma fresh_dispatcher_new w :
  request_builders w !! fresh (dom (request_builders w)) = None.
Proof. apply not_elem_of_dom, is_fresh. Qed.

End builder_extras.

(** X6. A setter of the builder called with [None] does nothing at all:
    the world is as before and the builder is returned. *)
Theorem setter_none_is_noop (f : loc → value → M loc) (key : string)
    (field : RequestSpecs → option value) (self : loc) (w : world) :
  (f, key, field) ∈ setters →
  f self None_ w = (w, inr self)
  ∧ ConfigBuilder.base_url self None w = (w, inr self).
Proof.
  intros H. destruct (setters_shape f key field H) as (upd & -> & _).
  done.
Qed.

Lemma setter_none_is_noop_witness :
  ConfigBuilder.ssl_verify 1%positive None_ Sample2.world_builder
    = (Sample2.world_builder, inr 1%positive).
Proof.
  apply (setter_none_is_noop ConfigBuilder.ssl_verify "verify" _verify 1%positive
           Sample2.world_builder).
  unfold setters. rewrite !elem_of_cons. tauto.
Defined.

(** X7. A setter called with a value other than [None], of whatever
    type, assigns its own field of the specification, writes the value
    to the store under its own key, and leaves the base URL, the fields
    of the other setters, the other keys of the store and the builder's
    store reference as they were. *)
Theorem setter_writes_field_and_key (f : loc → value → M loc) (key : string)
    (field : RequestSpecs → option value) (self : loc) (cb : ConfigBuilderObj)
    (p : gmap string value) (x : value) (w : world) :
  (f, key, field) ∈ setters →
  is_None x = false →
  config_builders w !! self = Some cb →
  configs w !! cb_request_config cb = Some p →
  ∃ w' cb',
    f self x w = (w', inr self)
    ∧ config_builders w' !! self = Some cb'
    ∧ cb_request_config cb' = cb_request_config cb
    ∧ field (cb_request_specs cb') = Some x
    ∧ _base_url (cb_request_specs cb') = _base_url (cb_request_specs cb)
    ∧ (∀ g key' field', (g, key', field') ∈ setters → key' ≠ key →
         field' (cb_request_specs cb') = field' (cb_request_specs cb))
    ∧ configs w' !! cb_request_config cb = Some (<[key := x]> p)
    ∧ request_builders w' = request_builders w
    ∧ wire w' = wire w.
Proof.
  intros H Hx Hcb Hp.
  destruct (setters_shape f key field H) as (upd & -> & Hfield & Hbase & Hothers).
  rewrite (setter_run upd key self cb p) by done.
  eexists _, _. split; [reflexivity|]. simpl.
  rewrite !lookup_insert_eq. split_and!; try done.
  - apply Hfield.
  - apply Hbase.
  - intros g key' field' Hg Hne. by apply (Hothers g key' field').
Qed.

Lemma setter_writes_field_and_key_witness :
  ∃ w' cb',
    ConfigBuilder.auth 1%positive Sample2.credentials Sample2.world_builder
      = (w', inr 1%positive)
    ∧ config_builders w' !! 1%positive = Some cb'
    ∧ _auth (cb_request_specs cb') = Some Sample2.credentials
    ∧ _query_params (cb_request_specs cb') = Some (Sample.params_a 1)
    ∧ configs w' !! 1%positive
      = Some (<["auth" := Sample2.credentials]> {["params" := Sample.params_a 1]}).
Proof.
  destruct (setter_writes_field_and_key ConfigBuilder.auth "auth" _auth 1%positive
              Sample2.builder {["params" := Sample.params_a 1]} Sample2.credentials
              Sample2.world_builder)
    as (w' & cb' & Hrun & Hcb & _ & Hfield & _ & Hothers & Hstore & _).
  - unfold setters. rewrite !elem_of_cons. tauto.
  - reflexivity.
  - reflexivity.
  - reflexivity.
  - exists w', cb'. split_and!; try assumption.
    rewrite (Hothers ConfigBuilder.params "params" _query_params).
    + reflexivity.
    + unfold setters. rewrite !elem_of_cons. tauto.
    + discriminate.
Defined.

(** X8. The base URL never enters the store.  [base_url] followed by
    [when] gives a new dispatcher whose service has the URL just set (or,
    for [None], the one the builder had), with no captured response, and
    whose store is the builder's own store, not a copy. *)
Theorem base_url_then_when (self : loc) (cb : ConfigBuilderObj)
    (url : option string) (w : world) :
  config_builders w !! self = Some cb →
  ∃ w' d rb,
    (let! builder := ConfigBuilder.base_url self url in
     ConfigBuilder.when builder) w = (w', inr d)
    ∧ request_builders w !! d = None
    ∧ request_builders w' !! d = Some rb
    ∧ rs_base_url (rb_request rb)
      = match url with Some u => Some u | None => _base_url (cb_request_specs cb) end
    ∧ rb_request_config rb = cb_request_config cb
    ∧ rb_response rb = None
    ∧ configs w' = configs w
    ∧ wire w' = wire w.
Proof.
  intros Hcb.
  exists (((let! builder := ConfigBuilder.base_url self url in
            ConfigBuilder.when builder) w).1),
         (fresh (dom (request_builders w))).
  unfold ConfigBuilder.base_url, ConfigBuilder.when, RequestBuilder.__init__,
    RequestService.__init__, new_request_builder, bind, read_config_builder,
    write_config_builder, ret.
  destruct url as [u|]; rewrite ?Hcb; simpl; rewrite ?lookup_insert_eq, ?Hcb; simpl.
  - eexists. split; [reflexivity|]. split; [apply fresh_dispatcher_new|].
    split; [apply lookup_insert_eq|]. done.
  - eexists. split; [reflexivity|]. split; [apply fresh_dispatcher_new|].
    split; [reflexivity|]. done.
Qed.

Lemma base_url_then_when_witness :
  ∃ w' d rb,
    (let! builder := ConfigBuilder.base_url 1%positive (Some "http://y.test/") in
     ConfigBuilder.when builder) Sample2.world_builder = (w', inr d)
    ∧ request_builders w' !! d = Some rb
    ∧ rs_base_url (rb_request rb) = Some "http://y.test/"
    ∧ rb_request_config rb = 1%positive
    ∧ configs w' = configs Sample2.world_builder.
Proof.
  destruct (base_url_then_when 1%positive Sample2.builder (Some "http://y.test/")
              Sample2.world_builder)
    as (w' & d & rb & Hrun & _ & Hrb & Hurl & Hstore & _ & Hconfigs & _).
  - reflexivity.
  - exists w', d, rb. split_and!; assumption.
Defined.

(** X10. Two calls of [given] create two builders with two distinct
    stores, both empty; no series of mutations of the one store changes
    the other. *)
Theorem given_twice_independent (u1 u2 : option string) (w : world) :
  ∃ w' a b ca cb,
    (let! a := Rip.given u1 in
     let! b := Rip.given u2 in
     ret (a, b)) w = (w', inr (a, b))
    ∧ a ≠ b
    ∧ config_builders w' !! a = Some ca
    ∧ config_builders w' !! b = Some cb
    ∧ cb_request_config ca ≠ cb_request_config cb
    ∧ configs w' !! cb_request_config ca = Some ∅
    ∧ configs w' !! cb_request_config cb = Some ∅
    ∧ (∀ ms, configs (mutate_all (cb_request_config ca) ms w')
               !! cb_request_config cb = Some ∅)
    ∧ (∀ ms, configs (mutate_all (cb_request_config cb) ms w')
               !! cb_request_config ca = Some ∅).
Proof.
  unfold Rip.given, ConfigBuilder.__init__, RequestConfig.__init__, new_config,
    new_config_builder, bind, ret. simpl.
  set (c1 := fresh (dom (configs w))).
  set (a := fresh (dom (config_builders w))).
  set (c2 := fresh (dom (<[c1 := ∅]> (configs w)))).
  set (b := fresh (dom (<[a := _]> (config_builders w)))).
  assert (c2 ≠ c1) as Hc by apply fresh_after_insert.
  assert (b ≠ a) as Hb by apply fresh_after_insert.
  eexists _, a, b, _, _. split; [reflexivity|]. simpl.
  assert (∀ (q : gmap loc (gmap string value)),
            <[c2 := ∅]> (<[c1 := ∅]> q) !! c1 = Some ∅) as H1.
  { intros q. rewrite lookup_insert_ne by done. apply lookup_insert_eq. }
  split_and!.
  - done.
  - rewrite lookup_insert_ne by done. apply lookup_insert_eq.
  - apply lookup_insert_eq.
  - simpl. done.
  - apply H1.
  - apply lookup_insert_eq.
  - intros ms. rewrite mutate_all_frame by done. simpl. apply lookup_insert_eq.
  - intros ms. rewrite mutate_all_frame by done. simpl. apply H1.
Qed.

(** ** The dispatcher: what a verb call sends, captures and leaves behind *)


Section dispatch_extras.
Context {transport : Transport}.
Implicit Types (w : world) (c : loc) (p : gmap string value).


Lemma verb_methods_verbs f method : (f, method) ∈ verb_methods → f ∈ verbs.
Proof.
  intros H. apply list_elem_of_In in H. unfold verb_methods in H. simpl in H.
  unfold verbs. rewrite !elem_of_cons.
  repeat (destruct H as [H|H]; [injection H as <- <-; tauto|]).
  by destruct H.
Qed.


Lemma then_run w self rb :
  request_builders w !! self = Some rb →
  RequestBuilder.then_ self w
    = (w, match rb_response rb with
          | Some response => inr {| eb_response := response |}
          | None => inl (AttributeError no_response_message)
          end).
Proof.
  intros Hrb. unfold RequestBuilder.then_, bind, read_request_builder.
  rewrite Hrb. by destruct (rb_response rb).
Qed.



Lemma bind_keywords_present f named p k :
  k ∈ named → is_Some (p !! k) → bind_keywords f named p ≠ Ok tt.
Proof.
  intros Hk Hsome. unfold bind_keywords.
  destruct (List.find _ named) as [k'|] eqn:E; [discriminate|].
  apply list_elem_of_In in Hk.
  pose proof (find_none _ _ E k Hk) as Hnone. simpl in Hnone.
  apply bool_decide_eq_false in Hnone. done.
Qed.

Lemma service_verb_reserved name method (rs : RequestServiceObj) endpoint p w k :
  k ∈ ["self"; "endpoint"; "method"] →
  is_Some (p !! k) →
  ∃ msg, RequestService.verb name method rs endpoint p w = (w, inl (TypeError msg)).
Proof.
  intros Hk Hsome. unfold RequestService.verb, bind, lift.
  destruct (bind_keywords_cases name ["self"; "endpoint"] p) as [->|[msg ->]];
    [|by exists msg].
  destruct (bind_keywords_cases "_request" ["self"; "method"; "endpoint"] p)
    as [H|[msg ->]]; [|by exists msg].
  exfalso. revert H. apply (bind_keywords_present _ _ _ k); [|done].
  revert Hk. rewrite !elem_of_cons, !elem_of_nil. tauto.
Qed.


End dispatch_extras.







(** X14. A verb operation given an override with a disallowed value
    raises the [ValueError] of [update] and never calls the session; the
    dispatcher keeps its captured response, and the overrides before the
    offending one stay in the store. *)
Theorem verb_invalid_override {transport : Transport}
    (f : loc → string → list (string * value) → M loc)
    (self : loc) (rb : RequestBuilderObj) (p : gmap string value)
    (endpoint : string) (pre post : list (string * value))
    (k : string) (v : value) (w : world) :
  f ∈ verbs →
  request_builders w !! self = Some rb →
  configs w !! rb_request_config rb = Some p →
  Forall (fun kv => accepted kv.2) pre →
  ¬ accepted v →
  ∃ w', f self endpoint (pre ++ (k, v) :: post)%list w
          = (w', inl (ValueError (RequestConfig.update_message k)))
        ∧ wire w' = wire w
        ∧ request_builders w' = request_builders w
        ∧ configs w' !! rb_request_config rb = Some (write_entries pre p).
Proof.
  intros Hf Hrb Hp Hpre Hv.
  destruct (verbs_shape f Hf) as (name & method & ->).
  unfold RequestBuilder.verb, bind, read_request_builder. rewrite Hrb.
  rewrite (update_run _ _ _ p) by done.
  rewrite merge_entries_stop by done. simpl.
  eexists. split; [reflexivity|]. simpl. by rewrite lookup_insert_eq.
Qed.

Lemma verb_invalid_override_witness :
  ∃ w', @RequestBuilder.get Sample.transport 1%positive "posts"
          [("auth", Sample2.credentials)] SampleChain.world_with_params
          = (w', inl (ValueError (RequestConfig.update_message "auth")))
        ∧ wire w' = [].
Proof.
  destruct (@verb_invalid_override Sample.transport
              (@RequestBuilder.get Sample.transport) 1%positive
              SampleChain.dispatcher {["params" := Sample.params_a 1]} "posts"
              [] [] "auth" Sample2.credentials SampleChain.world_with_params)
    as (w' & Hrun & Hwire & _).
  - apply list_elem_of_here.
  - reflexivity.
  - reflexivity.
  - constructor.
  - intros Ha. apply valid_value_accepted in Ha. discriminate Ha.
  - exists w'. split; [exact Hrun|]. rewrite Hwire. reflexivity.
Defined.





(** X17. An accepted override named [method] is merged into the store
    and then collides with the [method] argument of [_request]: the verb
    call raises [TypeError] without calling the session, and, the entry
    staying in the store, so does every later verb call given no
    overrides. *)
Theorem method_override_blocks_dispatch {transport : Transport}
    (f : loc → string → list (string * value) → M loc)
    (self : loc) (rb : RequestBuilderObj) (p : gmap string value)
    (endpoint : string) (kwargs : list (string * value)) (w : world) :
  f ∈ verbs →
  request_builders w !! self = Some rb →
  configs w !! rb_request_config rb = Some p →
  Forall (fun kv => accepted kv.2) kwargs →
  is_Some (write_entries kwargs p !! "method") →
  ∃ w' msg,
    f self endpoint kwargs w = (w', inl (TypeError msg))
    ∧ wire w' = wire w
    ∧ configs w' !! rb_request_config rb = Some (write_entries kwargs p)
    ∧ ∀ f2 endpoint2, f2 ∈ verbs →
        ∃ msg2, f2 self endpoint2 [] w' = (w', inl (TypeError msg2)).
Proof.
  intros Hf Hrb Hp Hok Hsome.
  assert ("method" ∈ ["self"; "endpoint"; "method"]) as Hk
    by (rewrite !elem_of_cons; tauto).
  destruct (verbs_shape f Hf) as (name & method & ->).
  set (options := write_entries kwargs p) in *.
  set (w1 := set_configs (insert (rb_request_config rb) options) w).
  assert (configs w1 !! rb_request_config rb = Some options) as Hp1.
  { simpl. apply lookup_insert_eq. }
  exists w1.
  assert (∃ msg, RequestBuilder.verb (RequestService.verb name method)
                   self endpoint kwargs w = (w1, inl (TypeError msg))) as (msg & Hrun).
  { unfold RequestBuilder.verb, bind, read_request_builder. rewrite Hrb.
    rewrite (update_run _ _ _ p) by done.
    rewrite (merge_entries_valid kwargs p Hok). simpl.
    fold options. fold w1. unfold read_config. rewrite Hp1.
    destruct (service_verb_reserved name method (rb_request rb) endpoint
                options w1 "method" Hk Hsome) as (msg & ->).
    by exists msg. }
  exists msg. split_and!; try done.
  intros f2 endpoint2 Hf2.
  destruct (verbs_shape f2 Hf2) as (name2 & method2 & ->).
  unfold RequestBuilder.verb, bind, read_request_builder.
  change (request_builders w1) with (request_builders w). rewrite Hrb.
  rewrite (update_run _ _ _ options) by done. simpl.
  rewrite (set_configs_id w1 _ options) by done. unfold read_config. rewrite Hp1.
  destruct (service_verb_reserved name2 method2 (rb_request rb) endpoint2
              options w1 "method" Hk Hsome) as (msg2 & ->).
  by exists msg2.
Qed.

Lemma method_override_blocks_dispatch_witness :
  ∃ w' msg,
    @RequestBuilder.get Sample.transport 1%positive "posts"
      [("method", Str "POST")] SampleChain.world_with_params
      = (w', inl (TypeError msg))
    ∧ wire w' = []
    ∧ ∃ msg2, @RequestBuilder.get Sample.transport 1%positive "posts" [] w'
              = (w', inl (TypeError msg2)).
Proof.
  destruct (@method_override_blocks_dispatch Sample.transport
              (@RequestBuilder.get Sample.transport) 1%positive
              SampleChain.dispatcher {["params" := Sample.params_a 1]} "posts"
              [("method", Str "POST")] SampleChain.world_with_params)
    as (w' & msg & Hrun & Hwire & _ & Hnext).
  - apply list_elem_of_here.
  - reflexivity.
  - reflexivity.
  - apply Forall_singleton, valid_value_accepted. reflexivity.
  - eexists. vm_compute. reflexivity.
  - exists w', msg. split; [exact Hrun|]. split; [rewrite Hwire; reflexivity|].
    apply Hnext. apply list_elem_of_here.
Defined.

(** X24. The captured response outlives [close], [clear] and [copy]:
    after any series of them [then] still hands out the response the
    last successful verb call captured. *)
Theorem response_survives_housekeeping (self : loc) (rb : RequestBuilderObj)
    (response : Response) (ops : list housekeeping) (w : world) :
  request_builders w !! self = Some rb →
  rb_response rb = Some response →
  RequestBuilder.then_ self (housekeep_all self ops w)
    = (housekeep_all self ops w, inr {| eb_response := response |}).
Proof.
  intros Hrb Hresponse.
  rewrite (then_run _ self rb); [by rewrite Hresponse|].
  by rewrite housekeep_all_builders.
Qed.

Lemma response_survives_housekeeping_witness :
  ∃ w', @RequestBuilder.get Sample2.failing_server 1%positive "posts" []
          SampleChain.world_with_params = (w', inr 1%positive)
        ∧ RequestBuilder.then_ 1%positive (housekeep_all 1%positive [Clear; Copy; Close] w')
          = (housekeep_all 1%positive [Clear; Copy; Close] w',
             inr {| eb_response := Sample.response 500 (Ok JNull) |}).
Proof.
  exists (@RequestBuilder.get Sample2.failing_server 1%positive "posts" []
            SampleChain.world_with_params).1.
  split; [vm_compute; reflexivity|].
  apply (response_survives_housekeeping 1%positive
           {| rb_request := rb_request SampleChain.dispatcher;
              rb_request_config := 1%positive;
              rb_response := Some (Sample.response 500 (Ok JNull)) |}).
  - vm_compute. reflexivity.
  - reflexivity.
Defined.



(** ** The dead helper of the service *)


(** ** The expectations on status and text *)

Section expect_extras.

Lemma py_eq_int (a b : Z) : py_eq (JInt a) (JInt b) = true ↔ a = b.
Proof.
  simpl. rewrite Qeq_bool_iff. split.
  - intros H. unfold Qeq in H. simpl in H. lia.
  - by intros ->.
Qed.

Lemma prefix_split (t s : string) :
  String.prefix t s = true → ∃ b, s = t ++ b.
Proof.
  revert s. induction t as [|c t IH]; intros s H.
  - by exists s.
  - destruct s as [|c' s]; [done|]. simpl in H.
    destruct (Ascii.ascii_dec c c') as [->|]; [|done].
    destruct (IH s H) as (b & ->). by exists b.
Qed.

Lemma is_substring_iff (t s : string) :
  is_substring t s = true ↔ ∃ a b, s = a ++ t ++ b.
Proof.
  split.
  - induction s as [|x s IH]; rewrite is_substring_unfold; intros H;
      apply orb_true_iff in H as [H|H]; try done.
    + destruct (prefix_split _ _ H) as (b & ->). by exists EmptyString, b.
    + destruct (prefix_split _ _ H) as (b & Hb). by exists EmptyString, b.
    + destruct (IH H) as (a & b & ->). by exists (String x a), b.
  - intros (a & b & ->). apply is_substring_app.
Qed.

Context {matcher : JSONPath}.

Lemma expect_check (self : ExpectBuilderObj) (e : expectation) :
  expect self e
    = match check (eb_response self) e with
      | inl err => inl err
      | inr _ => Ok self
      end.
Proof.
  destruct e; simpl;
    unfold ExpectBuilder.expect_status, ExpectBuilder.expect_body,
      ExpectBuilder.expect_body_contains, ExpectBuilder.expect_json, ExpectBuilder.expect_json_contains,
      ExpectBuilder.expect_json_path, rbind;
    by match goal with |- context [match ?r with _ => _ end] => destruct r end.
Qed.

End expect_extras.

(** X19. [status] passes exactly when the given code is the status code
    of the response, and raises an assertion mismatch otherwise. *)
Theorem status_iff_equal (self : Response) (code : Z) :
  (Expect.status self code = Ok tt ↔ code = status_code self)
  ∧ (Expect.status self code = Ok tt
     ∨ Expect.status self code = Raise AssertionError).
Proof.
  unfold Expect.status, assertpy.is_equal_to.
  destruct (py_eq (JInt code) (JInt (status_code self))) eqn:E.
  - split; [|by left]. split; [intros _; by apply py_eq_int | done].
  - split; [|by right]. split; [done|].
    intros H. apply py_eq_int in H. congruence.
Qed.

(** X20. [body] passes exactly when the given text is the text of the
    response.  [body_contains] with a string passes exactly when the
    string occurs in the text, and raises an assertion mismatch
    otherwise; with a value that is not a string it raises
    [TypeError]. *)
Theorem body_expectations (self : Response) (t : string) :
  (Expect.body self t = Ok tt ↔ t = text self)
  ∧ (Expect.body_contains self (JStr t) = Ok tt
     ↔ ∃ before after, text self = before ++ t ++ after)
  ∧ (Expect.body_contains self (JStr t) = Ok tt
     ∨ Expect.body_contains self (JStr t) = Raise AssertionError)
  ∧ (∀ v, (∀ s, v ≠ JStr s) →
       ∃ msg, Expect.body_contains self v = Raise (TypeError msg)).
Proof.
  split_and!.
  - unfold Expect.body, assertpy.is_equal_to. simpl.
    destruct (String.eqb t (text self)) eqn:E.
    + apply String.eqb_eq in E. done.
    + apply String.eqb_neq in E. split; [done | by intros ->].
  - unfold Expect.body_contains, assertpy.contains. simpl.
    rewrite <- is_substring_iff. by destruct (is_substring t (text self)).
  - unfold Expect.body_contains, assertpy.contains. simpl.
    destruct (is_substring t (text self)); auto.
  - intros v Hv. unfold Expect.body_contains, assertpy.contains. simpl.
    destruct v; try (by eexists). by destruct (Hv s).
Qed.

(** ** The expectations on the JSON body *)

(** X21. A body that is not JSON surfaces when an expectation reads it:
    [json], [json_contains] and [json_path] with a non-empty expression
    raise the decoding error of [response.json()], whereas [json_path]
    with the empty expression passes without reading the body. *)
Theorem json_decode_error_surfaces {matcher : JSONPath} (self : Response) (e : exn) :
  response_json self = inl e →
  (∀ expected, Expect.json self expected = inl e)
  ∧ (∀ expected, Expect.json_contains self expected = inl e)
  ∧ (∀ expr expected, expr ≠ EmptyString → Expect.json_path self expr expected = inl e)
  ∧ (∀ expected, Expect.json_path self EmptyString expected = Ok tt).
Proof.
  intros H. split_and!.
  - intros expected. unfold Expect.json. by rewrite H.
  - intros expected. unfold Expect.json_contains. by rewrite H.
  - intros expr expected Hne. unfold Expect.json_path, Expect._json_path_matches.
    destruct (String.eqb expr EmptyString) eqn:E.
    + apply String.eqb_eq in E. done.
    + by rewrite H.
  - done.
Qed.

Lemma json_decode_error_surfaces_witness :
  @Expect.json_path Sample.member_path (Sample2.text_response "<html>") "$.id" (JInt 1)
    = inl (JSONDecodeError "Expecting value")
  ∧ Expect.json (Sample2.text_response "<html>") (JDict [])
    = inl (JSONDecodeError "Expecting value").
Proof.
  destruct (@json_decode_error_surfaces Sample.member_path
              (Sample2.text_response "<html>") (JSONDecodeError "Expecting value"))
    as (Hjson & _ & Hpath & _).
  - reflexivity.
  - split; [apply Hpath; discriminate | apply Hjson].
Defined.

(** X25. An error of the JSONPath matcher (a malformed expression)
    comes out of [json_path] as it is. *)
Theorem json_path_matcher_error {matcher : JSONPath} (self : Response)
    (json_path_expr : string) (expected_value parsed : jsonval) (e : exn) :
  json_path_expr ≠ EmptyString →
  response_json self = Ok parsed →
  findall json_path_expr parsed = inl e →
  Expect.json_path self json_path_expr expected_value = inl e.
Proof.
  intros Hne Hparsed Hfind. unfold Expect.json_path, Expect._json_path_matches.
  destruct (String.eqb json_path_expr EmptyString) eqn:E.
  - apply String.eqb_eq in E. done.
  - rewrite Hparsed. simpl. by rewrite Hfind.
Qed.

Lemma json_path_matcher_error_witness :
  @Expect.json_path Sample.member_path
    (Sample.response 200 (Ok (JDict [("userId", JInt 1)]))) "userId" (JInt 1)
    = inl (JSONPathError "userId").
Proof.
  apply (@json_path_matcher_error Sample.member_path
           (Sample.response 200 (Ok (JDict [("userId", JInt 1)]))) "userId" (JInt 1)
           (JDict [("userId", JInt 1)])).
  - discriminate.
  - reflexivity.
  - reflexivity.
Defined.

(** X22. Against a body that is a mapping, [json_contains] with a string
    tests for a key: it passes exactly when the string is a key of the
    body; with a number, a boolean or [None] it never passes. *)
Theorem json_contains_key_of_mapping (self : Response)
    (entries : list (string * jsonval)) (k : string) :
  response_json self = Ok (JDict entries) →
  (Expect.json_contains self (JStr k) = Ok tt ↔ k ∈ entries.*1)
  ∧ (Expect.json_contains self (JStr k) = Ok tt
     ∨ Expect.json_contains self (JStr k) = Raise AssertionError)
  ∧ (∀ b, Expect.json_contains self (JBool b) = Raise AssertionError)
  ∧ (∀ z, Expect.json_contains self (JInt z) = Raise AssertionError)
  ∧ (∀ q, Expect.json_contains self (JFloat q) = Raise AssertionError)
  ∧ Expect.json_contains self JNull = Raise AssertionError.
Proof.
  intros H. unfold Expect.json_contains, assertpy.contains. rewrite H. simpl.
  split_and!; try done.
  - destruct (existsb _ entries) eqn:E.
    + split; [intros _|done].
      apply existsb_exists in E as ([k' v'] & Hin & Heq). simpl in Heq.
      apply String.eqb_eq in Heq. subst.
      apply list_elem_of_fmap. exists (k, v'). by rewrite list_elem_of_In.
    + split; [done|]. intros Hk.
      apply list_elem_of_fmap in Hk as ([k' v'] & -> & Hin).
      assert (existsb (fun kv : string * jsonval => String.eqb kv.1 k') entries = true)
        as E'.
      { apply existsb_exists. exists (k', v'). rewrite <- list_elem_of_In.
        split; [done|]. apply String.eqb_refl. }
      simpl in *. congruence.
  - destruct (existsb _ entries); auto.
Qed.

Lemma json_contains_key_of_mapping_witness :
  Expect.json_contains
    (Sample.response 200 (Ok (JDict [("userId", JInt 1); ("id", JInt 1)])))
    (JStr "userId") = Ok tt
  ∧ Expect.json_contains
      (Sample.response 200 (Ok (JDict [("userId", JInt 1); ("id", JInt 1)])))
      (JInt 1) = Raise AssertionError.
Proof.
  destruct (json_contains_key_of_mapping
              (Sample.response 200 (Ok (JDict [("userId", JInt 1); ("id", JInt 1)])))
              [("userId", JInt 1); ("id", JInt 1)] "userId")
    as (Hiff & _ & _ & Hint & _).
  - reflexivity.
  - split; [|apply Hint]. apply Hiff. apply list_elem_of_here.
Defined.

(** X23. A chain of expectations on one builder is fail-fast: it returns
    the builder it started from exactly when every expectation passes on
    the captured response, and otherwise raises what the first failing
    expectation raises, the later ones not being evaluated. *)
Theorem expect_all_fail_fast {matcher : JSONPath} (self : ExpectBuilderObj)
    (es : list expectation) :
  (expect_all self es = Ok self
   ↔ Forall (fun e => check (eb_response self) e = Ok tt) es)
  ∧ (∀ last, expect_all self es = Ok last → last = self)
  ∧ (∀ passed e rest err,
       es = (passed ++ e :: rest)%list →
       Forall (fun e => check (eb_response self) e = Ok tt) passed →
       check (eb_response self) e = inl err →
       expect_all self es = inl err).
Proof.
  split_and!.
  - induction es as [|e es IH]; simpl.
    + split; [constructor | done].
    + rewrite expect_check.
      destruct (check (eb_response self) e) as [err|[]] eqn:E; simpl.
      * split; [done|]. intros H. inversion H; subst. unfold Ok in *. congruence.
      * rewrite IH. split; [by constructor | intros H; by inversion H].
  - induction es as [|e es IH]; simpl; intros last H.
    + by injection H as <-.
    + rewrite expect_check in H.
      destruct (check (eb_response self) e) as [err|[]]; simpl in H; [done|].
      by apply IH.
  - intros passed e rest err -> Hpassed He.
    induction passed as [|e' passed IH]; simpl.
    + rewrite expect_check. by rewrite He.
    + inversion Hpassed as [|? ? He' Hrest]; subst.
      rewrite expect_check, He'. simpl. by apply IH.
Qed.
